(** * Server actions of the dashboard: validation, persistence, navigation

    A shallow embedding of [app/lib/actions.ts] (the ['use server'] module
    with [createInvoice], [updateInvoice], [deleteInvoice], [addCustomer],
    [deleteCustomer] and [authenticate]) together with the parts of the
    JavaScript runtime and of the zod 3 validation library that the actions
    run through: [Number] coercion, [FormData.get], [safeParse], [flatten],
    [Date.prototype.toISOString].

    Conventions.
    - A JavaScript string is a [string]; every character stands for one code
      unit below 256.
    - A JavaScript number is an IEEE-754 binary64 value, [spec_float] at
      precision 53 and maximal exponent 1024.
    - An object literal is an association list in insertion order.
    - An action is a computation in the monad [Action]: it reads the outside
      world (the store, the clock, the sign-in service), appends to a trace
      of observable calls, and either returns a value or throws. *)

From Stdlib Require Import ZArith List String Ascii Bool Lia.
From Stdlib Require Import Floats.SpecFloat.
Import ListNotations.

Local Open Scope Z_scope.
Local Open Scope string_scope.
Local Open Scope list_scope.

(* ================================================================== *)
(** * JavaScript numbers *)
(* ================================================================== *)

Module JsNumber.

Definition prec : Z := 53.
Definition emax : Z := 1024.

Definition number : Type := spec_float.

Definition NaN : number := S754_nan.
Definition Infinity : number := S754_infinity false.
Definition posZero : number := S754_zero false.

(** The number with integer value [z] (rounded to nearest, ties to even). *)
Definition ofZ (z : Z) : number := binary_normalize prec emax z 0 false.

(** The number nearest to [m * 10 ^ e]; a zero mantissa keeps the sign [neg]
    of the literal.  For a negative exponent the quotient is taken with 1200
    extra binary digits and a sticky bit, which places it strictly between
    the same two rounding boundaries as the exact value. *)
Definition ofDecimal (neg : bool) (m e : Z) : number :=
  let sgn (z : Z) := if neg then Z.opp z else z in
  if Z.eqb m 0 then S754_zero neg
  else if Z.leb 0 e then binary_normalize prec emax (sgn (m * 10 ^ e)) 0 neg
  else
    let d := 10 ^ (Z.opp e) in
    let q := Z.div (m * 2 ^ 1200) d in
    let r := Z.modulo (m * 2 ^ 1200) d in
    let sticky := if Z.eqb r 0 then 0%Z else 1%Z in
    binary_normalize prec emax (sgn (2 * q + sticky)) (-1201) neg.

Definition isNaN (x : number) : bool :=
  match x with S754_nan => true | _ => false end.

(** [x * y], [x <= y], [x < y] of the language. *)
Definition mul (x y : number) : number := SFmul prec emax x y.
Definition leb (x y : number) : bool := SFleb x y.
Definition ltb (x y : number) : bool := SFltb x y.

End JsNumber.

Import JsNumber.

(* ================================================================== *)
(** * JavaScript values and the [Number] coercion *)
(* ================================================================== *)

(** The values that reach the actions: what [FormData.get] returns (a string,
    a [File] object or [null]), [undefined] for a missing property, and the
    numbers that validation produces. *)
Inductive JsValue : Type :=
  | JUndefined
  | JNull
  | JStr (s : string)
  | JNum (x : number)
  | JFile (name : string).

(** An object literal: its own properties in insertion order. *)
Definition JsObject : Type := list (string * JsValue).

(** Property read [o.k]: [undefined] when the property is missing. *)
Fixpoint getProp (o : JsObject) (k : string) : JsValue :=
  match o with
  | [] => JUndefined
  | (k', v) :: rest => if String.eqb k' k then v else getProp rest k
  end.

Module StringToNumber.

(** White space and line terminators among the code units below 256:
    TAB, LF, VT, FF, CR, SP and NBSP. *)
Definition isWhiteSpace (c : ascii) : bool :=
  let n := nat_of_ascii c in
  (Nat.leb 9 n && Nat.leb n 13) || Nat.eqb n 32 || Nat.eqb n 160.

Fixpoint trimStart (s : string) : string :=
  match s with
  | String c r => if isWhiteSpace c then trimStart r else s
  | EmptyString => EmptyString
  end.

Fixpoint trimEnd (s : string) : string :=
  match s with
  | EmptyString => EmptyString
  | String c r =>
      match trimEnd r with
      | EmptyString => if isWhiteSpace c then EmptyString else String c EmptyString
      | r' => String c r'
      end
  end.

Definition trim (s : string) : string := trimEnd (trimStart s).

(** Value of a digit in the given radix. *)
Definition digitValue (radix : Z) (c : ascii) : option Z :=
  let n := Z.of_nat (nat_of_ascii c) in
  let v :=
    if Z.leb 48 n && Z.leb n 57 then Some (n - 48)%Z
    else if Z.leb 97 n && Z.leb n 102 then Some (n - 87)%Z
    else if Z.leb 65 n && Z.leb n 70 then Some (n - 55)%Z
    else None in
  match v with
  | Some d => if Z.ltb d radix then Some d else None
  | None => None
  end.

(** Reads the longest run of digits: the value read after [acc], the number
    of digits, and the rest of the string. *)
Fixpoint digits (radix : Z) (s : string) (acc : Z) (count : Z)
  : Z * Z * string :=
  match s with
  | String c r =>
      match digitValue radix c with
      | Some d => digits radix r (acc * radix + d) (count + 1)
      | None => (acc, count, s)
      end
  | EmptyString => (acc, count, s)
  end.

(** [ExponentPart_opt] followed by the end of the literal. *)
Definition exponentPart (s : string) : option Z :=
  match s with
  | EmptyString => Some 0%Z
  | String c r =>
      if Ascii.eqb c "e" || Ascii.eqb c "E" then
        let '(neg, r') :=
          match r with
          | String "+" t => (false, t)
          | String "-" t => (true, t)
          | _ => (false, r)
          end in
        match digits 10 r' 0 0 with
        | (v, n, EmptyString) =>
            if Z.ltb 0 n then Some (if neg then Z.opp v else v) else None
        | _ => None
        end
      else None
  end.

(** [StrUnsignedDecimalLiteral] other than [Infinity]: mantissa and decimal
    exponent. *)
Definition unsignedDecimal (s : string) : option (Z * Z) :=
  let '(i, ni, r) := digits 10 s 0 0 in
  let '(m, nf, r') :=
    match r with
    | String "." t => digits 10 t i 0
    | _ => (i, 0%Z, r)
    end in
  if Z.ltb 0 (ni + nf) then
    match exponentPart r' with
    | Some e => Some (m, (e - nf)%Z)
    | None => None
    end
  else None.

Definition strDecimalLiteral (s : string) : number :=
  let '(neg, u) :=
    match s with
    | String "+" t => (false, t)
    | String "-" t => (true, t)
    | _ => (false, s)
    end in
  if String.eqb u "Infinity" then S754_infinity neg
  else
    match unsignedDecimal u with
    | Some (m, e) => ofDecimal neg m e
    | None => NaN
    end.

(** [NonDecimalIntegerLiteral]: [0x], [0o], [0b] and their capitals. *)
Definition nonDecimalRadix (s : string) : option (Z * string) :=
  match s with
  | String "0" (String c r) =>
      if Ascii.eqb c "x" || Ascii.eqb c "X" then Some (16%Z, r)
      else if Ascii.eqb c "o" || Ascii.eqb c "O" then Some (8%Z, r)
      else if Ascii.eqb c "b" || Ascii.eqb c "B" then Some (2%Z, r)
      else None
  | _ => None
  end.

(** [StringToNumber]: the empty or blank string is [+0], a string that is
    not a [StringNumericLiteral] is [NaN]. *)
Definition stringToNumber (s : string) : number :=
  let t := trim s in
  match t with
  | EmptyString => posZero
  | _ =>
      match nonDecimalRadix t with
      | Some (radix, r) =>
          match digits radix r 0 0 with
          | (v, n, EmptyString) => if Z.ltb 0 n then ofZ v else NaN
          | _ => NaN
          end
      | None => strDecimalLiteral t
      end
  end.

End StringToNumber.

(** [Number(v)], the coercion behind [z.coerce.number()]. *)
Definition Number (v : JsValue) : number :=
  match v with
  | JUndefined => NaN
  | JNull => posZero
  | JStr s => StringToNumber.stringToNumber s
  | JNum x => x
  | JFile _ => NaN          (* Number("[object File]") *)
  end.

(* ================================================================== *)
(** * JavaScript strings *)
(* ================================================================== *)

Module JsString.

(** [s.split(sep)] for a separator of one character: the pieces of [s]
    between the occurrences of [sep]. *)
Fixpoint split (sep : ascii) (s : string) : list string :=
  match s with
  | EmptyString => [EmptyString]
  | String c r =>
      if Ascii.eqb c sep then EmptyString :: split sep r
      else match split sep r with
           | piece :: pieces => String c piece :: pieces
           | [] => [String c EmptyString]
           end
  end.

(** Every character of [s] satisfies [p]. *)
Fixpoint allChars (p : ascii -> bool) (s : string) : bool :=
  match s with
  | EmptyString => true
  | String c r => p c && allChars p r
  end.

(** [s.startsWith(p)] and [s.includes(p)]. *)
Fixpoint startsWith (p s : string) : bool :=
  match p, s with
  | EmptyString, _ => true
  | String a p', String b s' => Ascii.eqb a b && startsWith p' s'
  | String _ _, EmptyString => false
  end.

Fixpoint includes (p s : string) : bool :=
  startsWith p s ||
  match s with
  | EmptyString => false
  | String _ s' => includes p s'
  end.

End JsString.

(* ================================================================== *)
(** * The validation library (zod 3) *)
(* ================================================================== *)

Module Zod.

Inductive ZodIssueCode : Type :=
  | invalid_type
  | invalid_enum_value
  | too_small
  | invalid_string.

Record ZodIssue : Type := mkIssue {
  code : ZodIssueCode;
  path : list string;
  message : string
}.

(** [getParsedType]: the name of the runtime type of a value. *)
Definition getParsedType (v : JsValue) : string :=
  match v with
  | JUndefined => "undefined"
  | JNull => "null"
  | JStr _ => "string"
  | JNum x => if isNaN x then "nan" else "number"
  | JFile _ => "object"
  end.

(** The creation parameters that the schemas of the module pass. *)
Record RawCreateParams : Type := mkParams {
  invalid_type_error : option string;
  required_error : option string
}.

Definition noParams : RawCreateParams := mkParams None None.

(** Checks of a string schema: [.min(value, message)] and [.email()]. *)
Inductive StringCheck : Type :=
  | StrMin (value : nat) (message : string)
  | StrEmail (message : option string).

(** Check of a number schema: [.gt(value, {message})] is [kind: "min"] with
    [inclusive: false]. *)
Inductive NumberCheck : Type :=
  | NumMin (value : number) (inclusive : bool) (message : string).

Inductive ZodType : Type :=
  | ZodString (params : RawCreateParams) (checks : list StringCheck)
  | ZodNumber (coerce : bool) (params : RawCreateParams)
              (checks : list NumberCheck)
  | ZodEnum (values : list string) (params : RawCreateParams).

(** A [ZodObject]: its shape, keys in declaration order. *)
Definition ZodObject : Type := list (string * ZodType).

(** ** The e-mail pattern [emailRegex]

    Case-insensitive, anchored at both ends: not starting with a dot; no two
    dots in a row; a local part of characters among letters, digits and
    [_ ' + - .] whose last character is a letter, a digit or one of [_ + -];
    an [@]; one or more labels, each a letter or digit followed by letters,
    digits and hyphens and closed by a dot; at least two letters. *)
Module Email.

Definition inRange (lo hi : nat) (c : ascii) : bool :=
  let n := nat_of_ascii c in (Nat.leb lo n && Nat.leb n hi)%bool.

Definition isLetter (c : ascii) : bool := inRange 65 90 c || inRange 97 122 c.
Definition isAlnum (c : ascii) : bool := isLetter c || inRange 48 57 c.

Definition oneOf (set : string) (c : ascii) : bool :=
  existsb (Ascii.eqb c) (list_ascii_of_string set).

(** The three character classes of the pattern, under the [i] flag. *)
Definition localChar (c : ascii) : bool := isAlnum c || oneOf "_'+-." c.
Definition localLast (c : ascii) : bool := isAlnum c || oneOf "_+-" c.
Definition labelChar (c : ascii) : bool := isAlnum c || oneOf "-" c.

Fixpoint hasDoubleDot (s : string) : bool :=
  match s with
  | String "." (String "." _) => true
  | String _ r => hasDoubleDot r
  | EmptyString => false
  end.

(** The local part: characters of the first class, the last one of the
    second. *)
Fixpoint localPart (s : string) : bool :=
  match s with
  | EmptyString => false
  | String c EmptyString => localLast c
  | String c r => localChar c && localPart r
  end.

(** A label of the domain. *)
Definition label (s : string) : bool :=
  match s with
  | EmptyString => false
  | String c r => isAlnum c && JsString.allChars labelChar r
  end.

(** The domain, on its pieces between the dots: one label or more, then
    the letters that end the address. *)
Fixpoint domainPieces (seen : bool) (pieces : list string) : bool :=
  match pieces with
  | [] => false
  | [tld] => seen && JsString.allChars isLetter tld && Nat.leb 2 (String.length tld)
  | piece :: rest => label piece && domainPieces true rest
  end.

Definition test (s : string) : bool :=
  match s with
  | String "." _ => false
  | _ =>
      negb (hasDoubleDot s) &&
      match JsString.split "@" s with
      | [loc; dom] => localPart loc && domainPieces false (JsString.split "." dom)
      | _ => false
      end
  end.

End Email.

(** ** Messages *)

(** [util.joinValues]: the quoted values separated by [" | "]. *)
Fixpoint joinValues (values : list string) : string :=
  match values with
  | [] => EmptyString
  | [v] => "'" ++ v ++ "'"
  | v :: rest => "'" ++ v ++ "' | " ++ joinValues rest
  end.

(** The default error map for an [invalid_type] issue. *)
Definition defaultInvalidType (expected : string) (data : JsValue) : string :=
  match data with
  | JUndefined => "Required"
  | _ => "Expected " ++ expected ++ ", received " ++ getParsedType data
  end.

(** The error map that [processCreateParams] builds from the creation
    parameters, applied to an [invalid_type] issue. *)
Definition invalidTypeMessage (params : RawCreateParams) (expected : string)
    (data : JsValue) : string :=
  let dflt := defaultInvalidType expected data in
  match data with
  | JUndefined =>
      match required_error params with Some m => m | None => dflt end
  | _ =>
      match invalid_type_error params with Some m => m | None => dflt end
  end.

(** Text of a received enum value. *)
Definition invalidEnumMessage (values : list string) (received : string)
  : string :=
  "Invalid enum value. Expected " ++ joinValues values
    ++ ", received '" ++ received ++ "'".

(** ** Parsing *)

Definition stringCheck (p : list string) (s : string) (c : StringCheck)
  : list ZodIssue :=
  match c with
  | StrMin value msg =>
      if Nat.ltb (String.length s) value then [mkIssue too_small p msg]
      else []
  | StrEmail msg =>
      if Email.test s then []
      else [mkIssue invalid_string p
              (match msg with Some m => m | None => "Invalid email" end)]
  end.

Definition numberCheck (p : list string) (x : number) (c : NumberCheck)
  : list ZodIssue :=
  match c with
  | NumMin value inclusive msg =>
      let tooSmall := if inclusive then ltb x value else leb x value in
      if tooSmall then [mkIssue too_small p msg] else []
  end.

(** [_parse] of a schema on the value at path [p]: the issues raised and the
    parsed value. *)
Definition parse (t : ZodType) (p : list string) (data : JsValue)
  : list ZodIssue * JsValue :=
  match t with
  | ZodString params checks =>
      match data with
      | JStr s => (flat_map (stringCheck p s) checks, data)
      | _ => ([mkIssue invalid_type p (invalidTypeMessage params "string" data)],
              data)
      end
  | ZodNumber coerce params checks =>
      let data := if coerce then JNum (Number data) else data in
      match data with
      | JNum x =>
          if isNaN x then
            ([mkIssue invalid_type p (invalidTypeMessage params "number" data)],
             data)
          else (flat_map (numberCheck p x) checks, data)
      | _ => ([mkIssue invalid_type p (invalidTypeMessage params "number" data)],
              data)
      end
  | ZodEnum values params =>
      match data with
      | JStr s =>
          if existsb (String.eqb s) values then ([], data)
          else ([mkIssue invalid_enum_value p (invalidEnumMessage values s)],
                data)
      | _ => ([mkIssue invalid_type p
                 (invalidTypeMessage params (joinValues values) data)], data)
      end
  end.

(** [_parse] of an object schema: every key of the shape in order, reading
    the property of that name from the input. *)
Fixpoint parseObject (shape : ZodObject) (data : JsObject)
  : list ZodIssue * JsObject :=
  match shape with
  | [] => ([], [])
  | (key, t) :: rest =>
      let '(issues, value) := parse t [key] (getProp data key) in
      let '(issues', out) := parseObject rest data in
      (issues ++ issues', (key, value) :: out)
  end.

Inductive SafeParseReturnType : Type :=
  | SafeParseSuccess (data : JsObject)
  | SafeParseError (issues : list ZodIssue).

Definition success (r : SafeParseReturnType) : bool :=
  match r with SafeParseSuccess _ => true | SafeParseError _ => false end.

Definition safeParse (schema : ZodObject) (data : JsObject)
  : SafeParseReturnType :=
  match parseObject schema data with
  | ([], out) => SafeParseSuccess out
  | (issues, _) => SafeParseError issues
  end.

(** [schema.omit(mask)]: the shape without the keys set in the mask. *)
Definition omit (mask : list string) (schema : ZodObject) : ZodObject :=
  filter (fun kt => negb (existsb (String.eqb (fst kt)) mask)) schema.

(** ** [error.flatten().fieldErrors] *)

Definition FieldErrors : Type := list (string * list string).

(** [fieldErrors[k] = fieldErrors[k] || []; fieldErrors[k].push(msg)] *)
Fixpoint pushFieldError (k msg : string) (fe : FieldErrors) : FieldErrors :=
  match fe with
  | [] => [(k, [msg])]
  | (k', msgs) :: rest =>
      if String.eqb k' k then (k', msgs ++ [msg]) :: rest
      else (k', msgs) :: pushFieldError k msg rest
  end.

Definition fieldErrors (issues : list ZodIssue) : FieldErrors :=
  fold_left
    (fun fe issue =>
       match path issue with
       | k :: _ => pushFieldError k (message issue) fe
       | [] => fe
       end)
    issues [].

(** Property read [errors.k]. *)
Fixpoint fieldError (fe : FieldErrors) (k : string) : option (list string) :=
  match fe with
  | [] => None
  | (k', msgs) :: rest => if String.eqb k' k then Some msgs else fieldError rest k
  end.

End Zod.

Import Zod.

(* ================================================================== *)
(** * Dates *)
(* ================================================================== *)

(** A [Date] is its time value: milliseconds since the epoch, UTC. *)
Module JsDate.

Definition msPerDay : Z := 86400000.

Definition Day (t : Z) : Z := t / msPerDay.
Definition TimeWithinDay (t : Z) : Z := t mod msPerDay.

Definition isLeapYear (y : Z) : bool :=
  (Z.eqb (y mod 4) 0 && negb (Z.eqb (y mod 100) 0)) || Z.eqb (y mod 400) 0.

Definition DaysInYear (y : Z) : Z := if isLeapYear y then 366 else 365.

Definition DayFromYear (y : Z) : Z :=
  365 * (y - 1970) + (y - 1969) / 4 - (y - 1901) / 100 + (y - 1601) / 400.

(** The largest [y] with [DayFromYear y <= Day t]: a first estimate from the
    mean length of a year, corrected by one year either way. *)
Definition YearFromTime (t : Z) : Z :=
  let d := Day t in
  let y := 1970 + (d * 400) / 146097 in
  if Z.ltb d (DayFromYear y) then y - 1
  else if Z.leb (DayFromYear (y + 1)) d then y + 1
  else y.

Definition DayWithinYear (t : Z) : Z := Day t - DayFromYear (YearFromTime t).

Definition InLeapYear (t : Z) : Z :=
  if isLeapYear (YearFromTime t) then 1 else 0.

(** Month, counted from 0 for January. *)
Definition MonthFromTime (t : Z) : Z :=
  let d := DayWithinYear t in
  let l := InLeapYear t in
  if Z.ltb d 31 then 0
  else if Z.ltb d (59 + l) then 1
  else if Z.ltb d (90 + l) then 2
  else if Z.ltb d (120 + l) then 3
  else if Z.ltb d (151 + l) then 4
  else if Z.ltb d (181 + l) then 5
  else if Z.ltb d (212 + l) then 6
  else if Z.ltb d (243 + l) then 7
  else if Z.ltb d (273 + l) then 8
  else if Z.ltb d (304 + l) then 9
  else if Z.ltb d (334 + l) then 10
  else 11.

(** Day of the month, counted from 1. *)
Definition DateFromTime (t : Z) : Z :=
  let d := DayWithinYear t in
  let l := InLeapYear t in
  match MonthFromTime t with
  | 0 => d + 1
  | 1 => d - 30
  | 2 => d - 58 - l
  | 3 => d - 89 - l
  | 4 => d - 119 - l
  | 5 => d - 150 - l
  | 6 => d - 180 - l
  | 7 => d - 211 - l
  | 8 => d - 242 - l
  | 9 => d - 272 - l
  | 10 => d - 303 - l
  | _ => d - 333 - l
  end.

Definition HourFromTime (t : Z) : Z := (t / 3600000) mod 24.
Definition MinFromTime (t : Z) : Z := (t / 60000) mod 60.
Definition SecFromTime (t : Z) : Z := (t / 1000) mod 60.
Definition msFromTime (t : Z) : Z := t mod 1000.

Definition digitChar (d : Z) : ascii := ascii_of_nat (48 + Z.to_nat d).

(** The [width] low decimal digits of [z], most significant first. *)
Fixpoint decimal (width : nat) (z : Z) : string :=
  match width with
  | O => EmptyString
  | S w => decimal w (z / 10) ++ String (digitChar (z mod 10)) EmptyString
  end.

(** Four digits for the years 0 to 9999, a sign and six digits otherwise. *)
Definition yearString (y : Z) : string :=
  if Z.leb 0 y && Z.leb y 9999 then decimal 4 y
  else if Z.leb 0 y then String "+" (decimal 6 y)
  else String "-" (decimal 6 (Z.opp y)).

(** [YYYY-MM-DD] *)
Definition dateString (t : Z) : string :=
  yearString (YearFromTime t) ++ "-" ++ decimal 2 (MonthFromTime t + 1)
    ++ "-" ++ decimal 2 (DateFromTime t).

(** [HH:mm:ss.sssZ] *)
Definition timeString (t : Z) : string :=
  decimal 2 (HourFromTime t) ++ ":" ++ decimal 2 (MinFromTime t) ++ ":"
    ++ decimal 2 (SecFromTime t) ++ "." ++ decimal 3 (msFromTime t) ++ "Z".

Definition toISOString (t : Z) : string :=
  dateString t ++ "T" ++ timeString t.

End JsDate.

(* ================================================================== *)
(** * Form data *)
(* ================================================================== *)

Module FormData.

(** [FormDataEntryValue]: a string or a [File]. *)
Inductive EntryValue : Type :=
  | EntryString (s : string)
  | EntryFile (name : string).

(** The entries of a submission, in order; a name may occur several times. *)
Definition t : Type := list (string * EntryValue).

Definition valueOf (e : EntryValue) : JsValue :=
  match e with
  | EntryString s => JStr s
  | EntryFile n => JFile n
  end.

(** [formData.get(name)]: the first value of that name, or [null]. *)
Fixpoint get (formData : t) (name : string) : JsValue :=
  match formData with
  | [] => JNull
  | (n, e) :: rest => if String.eqb n name then valueOf e else get rest name
  end.

(** [formData.has(name)] *)
Definition has (formData : t) (name : string) : bool :=
  existsb (fun ne => String.eqb (fst ne) name) formData.

End FormData.

(* ================================================================== *)
(** * Collaborators and the action monad *)
(* ================================================================== *)

(** The statements that the module sends through the [sql] tag, with their
    bound parameters in order of appearance. *)
Inductive SqlStatement : Type :=
  (* INSERT INTO invoices (customer_id, amount, status, date) VALUES (..) *)
  | InsertIntoInvoices (customer_id amount status date : JsValue)
  (* UPDATE invoices SET customer_id = .., amount = .., status = .. WHERE id = .. *)
  | UpdateInvoices (customer_id amount status : JsValue) (id : string)
  (* DELETE FROM invoices WHERE id = .. *)
  | DeleteFromInvoices (id : string)
  (* INSERT INTO customers (name, email, image_url) VALUES (..) *)
  | InsertIntoCustomers (name email image_url : JsValue)
  (* DELETE FROM customers WHERE id = .. *)
  | DeleteFromCustomers (id : string).

(** What a call can throw: an [AuthError] of next-auth with its [type], the
    [NEXT_REDIRECT] signal of [redirect], or any other value. *)
Inductive Thrown : Type :=
  | AuthError (type : string)
  | NextRedirect (url : string)
  | OtherError (description : string).

(** The outside world of one invocation: how the store answers a statement
    ([None]: it resolves; [Some e]: it rejects with [e]), how the sign-in
    service answers, and the time value that [new Date()] reads. *)
Record World : Type := mkWorld {
  store : SqlStatement -> option Thrown;
  auth : string -> FormData.t -> option Thrown;
  clock : Z
}.

(** The calls to collaborators that an invocation makes, as observed from
    outside. *)
Inductive Event : Type :=
  | Sql (statement : SqlStatement)
  | ConsoleError (e : Thrown)
  | RevalidatePath (path : string)
  | SignIn (provider : string) (formData : FormData.t).

Inductive Completion (A : Type) : Type :=
  | Return (a : A)
  | Throw (e : Thrown).

Arguments Return {A} a.
Arguments Throw {A} e.

Definition Action (A : Type) : Type :=
  World -> list Event -> Completion A * list Event.

Definition ret {A} (a : A) : Action A := fun _ tr => (Return a, tr).

Definition throw {A} (e : Thrown) : Action A := fun _ tr => (Throw e, tr).

Definition bind {A B} (m : Action A) (k : A -> Action B) : Action B :=
  fun w tr =>
    match m w tr with
    | (Return a, tr') => k a w tr'
    | (Throw e, tr') => (Throw e, tr')
    end.

(** [try { body } catch (e) { handler e }] *)
Definition tryCatch {A} (body : Action A) (handler : Thrown -> Action A)
  : Action A :=
  fun w tr =>
    match body w tr with
    | (Return a, tr') => (Return a, tr')
    | (Throw e, tr') => handler e w tr'
    end.

Notation "x <- m ;; k" := (bind m (fun x => k))
  (at level 61, m at next level, right associativity).
Notation "m ;; k" := (bind m (fun _ => k))
  (at level 61, right associativity).

(** The completion and the trace of an action started on an empty trace. *)
Definition run {A} (m : Action A) (w : World) : Completion A * list Event :=
  m w [].

(** [await sql`...`] *)
Definition sql (q : SqlStatement) : Action unit :=
  fun w tr =>
    match store w q with
    | None => (Return tt, tr ++ [Sql q])
    | Some e => (Throw e, tr ++ [Sql q])
    end.

Definition consoleError (e : Thrown) : Action unit :=
  fun _ tr => (Return tt, tr ++ [ConsoleError e]).

Definition revalidatePath (path : string) : Action unit :=
  fun _ tr => (Return tt, tr ++ [RevalidatePath path]).

(** [redirect(url)] never returns: it throws the navigation signal. *)
Definition redirect {A} (url : string) : Action A := throw (NextRedirect url).

(** [await signIn(provider, formData)] *)
Definition signIn (provider : string) (formData : FormData.t) : Action unit :=
  fun w tr =>
    match auth w provider formData with
    | None => (Return tt, tr ++ [SignIn provider formData])
    | Some e => (Throw e, tr ++ [SignIn provider formData])
    end.

(** [new Date()] *)
Definition newDate : Action Z := fun w tr => (Return (clock w), tr).

(* ================================================================== *)
(** * The actions *)
(* ================================================================== *)

(** [State] and [CustomersState]: every property is optional. *)
Record State : Type := mkState {
  errors : option FieldErrors;
  values : option JsObject;
  message : option string
}.

Definition CustomersState : Type := State.

Definition FormSchema : ZodObject :=
  [ ("id", ZodString noParams []);
    ("customerId",
       ZodString (mkParams (Some "Please select a customer.") None) []);
    ("amount",
       ZodNumber true noParams
         [NumMin (ofZ 0) false "Please enter an amount greater than $0."]);
    ("status",
       ZodEnum ["pending"; "paid"]
         (mkParams (Some "Please select an invoice status.") None));
    ("date", ZodString noParams []) ].

Definition AddCustomerSchema : ZodObject :=
  [ ("name", ZodString noParams [StrMin 1 "Please enter the name."]);
    ("email", ZodString noParams [StrEmail None]) ].

Definition CreateInvoice : ZodObject := omit ["id"; "date"] FormSchema.
Definition UpdateInvoice : ZodObject := omit ["id"; "date"] FormSchema.

(** The object literal [rawFormData] of the two invoice actions. *)
Definition invoiceRaw (formData : FormData.t) : JsObject :=
  [ ("customerId", FormData.get formData "customerId");
    ("amount", FormData.get formData "amount");
    ("status", FormData.get formData "status") ].

(** The object literal [rawFormData] of [addCustomer]. *)
Definition customerRaw (formData : FormData.t) : JsObject :=
  [ ("name", FormData.get formData "name");
    ("email", FormData.get formData "email") ].

(** [new Date().toISOString().split('T')[0]] *)
Definition today : Action JsValue :=
  d <- newDate ;;
  ret (match JsString.split "T" (JsDate.toISOString d) with
       | piece :: _ => JStr piece
       | [] => JUndefined
       end).

Definition createInvoice (prevState : State) (formData : FormData.t)
  : Action State :=
  let rawFormData := invoiceRaw formData in
  let validatedFields := safeParse CreateInvoice rawFormData in
  match validatedFields with
  | SafeParseError issues =>
      ret (mkState (Some (fieldErrors issues)) (Some rawFormData)
             (Some "Missing Fields. Failed to Create Invoice."))
  | SafeParseSuccess data =>
      let customerId := getProp data "customerId" in
      let amount := getProp data "amount" in
      let status := getProp data "status" in
      let amountInCents := JNum (mul (Number amount) (ofZ 100)) in
      date <- today ;;
      early <-
        tryCatch
          (sql (InsertIntoInvoices customerId amountInCents status date) ;;
           ret None)
          (fun e =>
             consoleError e ;;
             ret (Some (mkState None (Some rawFormData)
                          (Some "Database Error: Failed to Create Invoice.")))) ;;
      match early with
      | Some result => ret result
      | None =>
          revalidatePath "/dashboard/invoices" ;;
          redirect "/dashboard/invoices"
      end
  end.

Definition updateInvoice (id : string) (prevState : State)
    (formData : FormData.t) : Action State :=
  let rawFormData := invoiceRaw formData in
  let validatedFields := safeParse UpdateInvoice rawFormData in
  match validatedFields with
  | SafeParseError issues =>
      ret (mkState (Some (fieldErrors issues)) (Some rawFormData)
             (Some "Missing Fields. Failed to Update Invoice."))
  | SafeParseSuccess data =>
      let customerId := getProp data "customerId" in
      let amount := getProp data "amount" in
      let status := getProp data "status" in
      let amountInCents := JNum (mul (Number amount) (ofZ 100)) in
      early <-
        tryCatch
          (sql (UpdateInvoices customerId amountInCents status id) ;;
           ret None)
          (fun e =>
             consoleError e ;;
             ret (Some (mkState None (Some rawFormData)
                          (Some "Database Error: Failed to Update Invoice.")))) ;;
      match early with
      | Some result => ret result
      | None =>
          revalidatePath "/dashboard/invoices" ;;
          redirect "/dashboard/invoices"
      end
  end.

Definition deleteInvoice (id : string) : Action unit :=
  sql (DeleteFromInvoices id) ;;
  revalidatePath "/dashboard/invoices".

Definition addCustomer (prevState : CustomersState) (formData : FormData.t)
  : Action CustomersState :=
  let rawFormData := customerRaw formData in
  let validatedFields := safeParse AddCustomerSchema rawFormData in
  match validatedFields with
  | SafeParseError issues =>
      ret (mkState (Some (fieldErrors issues)) (Some rawFormData)
             (Some "Missing Fields. Failed to Add Customer."))
  | SafeParseSuccess data =>
      let name := getProp data "name" in
      let email := getProp data "email" in
      let imageUrl := JStr "/customers/avatar-placeholder.webp" in
      early <-
        tryCatch
          (sql (InsertIntoCustomers name email imageUrl) ;;
           ret None)
          (fun e =>
             consoleError e ;;
             ret (Some (mkState None (Some rawFormData)
                          (Some "Database Error: Failed to Add Customer.")))) ;;
      match early with
      | Some result => ret result
      | None =>
          revalidatePath "/dashboard/customers" ;;
          redirect "/dashboard/customers"
      end
  end.

Definition deleteCustomer (id : string) : Action unit :=
  sql (DeleteFromCustomers id) ;;
  revalidatePath "/dashboard/customers".

(** The result is a message, or [None] for [undefined]. *)
Definition authenticate (prevState : option string) (formData : FormData.t)
  : Action (option string) :=
  tryCatch
    (signIn "credentials" formData ;;
     ret None)
    (fun error =>
       match error with
       | AuthError type =>
           if String.eqb type "CredentialsSignin"
           then ret (Some "Invalid credentials.")
           else ret (Some "Something went wrong.")
       | _ => throw error
       end).

(* ================================================================== *)
(** * Vocabulary of the statements *)
(* ================================================================== *)

(** The raw object of an invoice submission with the given three values. *)
Definition invoiceObject (customerId amount status : JsValue) : JsObject :=
  [("customerId", customerId); ("amount", amount); ("status", status)].

Definition isString (v : JsValue) : bool :=
  match v with JStr _ => true | _ => false end.

Definition isNonEmptyString (v : JsValue) : bool :=
  match v with
  | JStr EmptyString => false
  | JStr _ => true
  | _ => false
  end.

Definition isInvoiceStatus (v : JsValue) : bool :=
  match v with
  | JStr s => String.eqb s "pending" || String.eqb s "paid"
  | _ => false
  end.

Definition amountMessage : string := "Please enter an amount greater than $0.".

(** The issues of the three fields, each on its own. *)
Definition customerIdIssues (c : JsValue) : list ZodIssue :=
  if isString c then []
  else [mkIssue invalid_type ["customerId"]
          (match c with
           | JUndefined => "Required"
           | _ => "Please select a customer."
           end)].

Definition amountIssues (a : JsValue) : list ZodIssue :=
  if isNaN (Number a)
  then [mkIssue invalid_type ["amount"] "Expected number, received nan"]
  else if leb (Number a) (ofZ 0)
       then [mkIssue too_small ["amount"] amountMessage]
       else [].

Definition statusIssues (s : JsValue) : list ZodIssue :=
  match s with
  | JStr str =>
      if isInvoiceStatus s then []
      else [mkIssue invalid_enum_value ["status"]
              (invalidEnumMessage ["pending"; "paid"] str)]
  | JUndefined => [mkIssue invalid_type ["status"] "Required"]
  | _ => [mkIssue invalid_type ["status"] "Please select an invoice status."]
  end.

Definition customerObject (name email : JsValue) : JsObject :=
  [("name", name); ("email", email)].

Definition isEmail (v : JsValue) : bool :=
  match v with JStr s => Email.test s | _ => false end.

(** The statement that [createInvoice] sends for validated [data] when the
    clock reads [now]; those of [updateInvoice] and [addCustomer]. *)
Definition createInvoiceStatement (data : JsObject) (now : Z) : SqlStatement :=
  InsertIntoInvoices (getProp data "customerId")
    (JNum (mul (Number (getProp data "amount")) (ofZ 100)))
    (getProp data "status") (JStr (JsDate.dateString now)).

Definition updateInvoiceStatement (data : JsObject) (id : string)
  : SqlStatement :=
  UpdateInvoices (getProp data "customerId")
    (JNum (mul (Number (getProp data "amount")) (ofZ 100)))
    (getProp data "status") id.

Definition addCustomerStatement (data : JsObject) : SqlStatement :=
  InsertIntoCustomers (getProp data "name") (getProp data "email")
    (JStr "/customers/avatar-placeholder.webp").

(** The two ways a create, update or add action ends once validation has
    passed and the statement [q] has been sent. *)
Definition afterStatement (w : World) (q : SqlStatement) (raw : JsObject)
    (failure listing : string) : Completion State * list Event :=
  match store w q with
  | None => (Throw (NextRedirect listing), [Sql q; RevalidatePath listing])
  | Some e =>
      (Return (mkState None (Some raw) (Some failure)), [Sql q; ConsoleError e])
  end.

(** [state.errors?.field] *)
Definition errorsFor (st : State) (field : string) : option (list string) :=
  match errors st with
  | Some fe => fieldError fe field
  | None => None
  end.

(** The field errors that a result of [safeParse] carries. *)
Definition errorsOf (r : SafeParseReturnType) : option FieldErrors :=
  match r with
  | SafeParseSuccess _ => None
  | SafeParseError issues => Some (fieldErrors issues)
  end.

(** The calendar that the date text is read against. *)
Module Calendar.

Definition notT (c : ascii) : bool := negb (Ascii.eqb c "T").

(** Days of the year before the month [m] (0 for January) and days of that
    month, in a year of [365 + l] days. *)
Definition daysBeforeMonth (l m : Z) : Z :=
  match m with
  | 0 => 0 | 1 => 31 | 2 => 59 + l | 3 => 90 + l | 4 => 120 + l
  | 5 => 151 + l | 6 => 181 + l | 7 => 212 + l | 8 => 243 + l
  | 9 => 273 + l | 10 => 304 + l | _ => 334 + l
  end.

Definition daysInMonth (l m : Z) : Z :=
  match m with
  | 1 => 28 + l
  | 3 | 5 | 8 | 10 => 30
  | _ => 31
  end.

End Calendar.

(* ================================================================== *)
(** * Sample submissions and worlds *)
(* ================================================================== *)

Module Sample.

Definition text (name value : string) : string * FormData.EntryValue :=
  (name, FormData.EntryString value).

(** An empty [customerId], the amount "-5" and the status "x". *)
Definition badInvoice : FormData.t :=
  [text "customerId" EmptyString; text "amount" "-5"; text "status" "x"].

Definition goodInvoice : FormData.t :=
  [text "customerId" "c-42"; text "amount" "12.5"; text "status" "paid"].

Definition emptyCustomerInvoice : FormData.t :=
  [text "customerId" EmptyString; text "amount" "5"; text "status" "paid"].

Definition goodCustomer : FormData.t :=
  [text "name" "Ada"; text "email" "ada@example.com";
   text "image_url" "/customers/ada.png"].

(** [{name: "Ada", email: "not-an-email"}] *)
Definition badCustomer : FormData.t :=
  [text "name" "Ada"; text "email" "not-an-email"].

Definition initialState : State := mkState (Some []) (Some []) None.

(** 2026-11-02T06:13:20.123Z *)
Definition sampleTime : Z := 1793600000123.

(** A store that accepts every statement, one that rejects every statement
    with [e]; a sign-in service that answers [r]. *)
Definition accepting : World := mkWorld (fun _ => None) (fun _ _ => None) sampleTime.
Definition rejecting (e : Thrown) : World :=
  mkWorld (fun _ => Some e) (fun _ _ => None) sampleTime.
Definition signingIn (r : option Thrown) : World :=
  mkWorld (fun _ => None) (fun _ _ => r) sampleTime.

Definition connectionLost : Thrown := OtherError "connection terminated".

End Sample.

(* ================================================================== *)
(** * The errors of one field *)
(* ================================================================== *)

(** What [errors] holds for a field: nothing, or the messages under its
    key. *)
Definition entry (key : string) (messages : option (list string))
  : FieldErrors :=
  match messages with
  | Some m => [(key, m)]
  | None => []
  end.

Definition customerIdError (c : JsValue) : option (list string) :=
  match c with
  | JStr _ => None
  | JUndefined => Some ["Required"]
  | _ => Some ["Please select a customer."]
  end.

Definition amountError (a : JsValue) : option (list string) :=
  if isNaN (Number a) then Some ["Expected number, received nan"]
  else if leb (Number a) (ofZ 0)
       then Some ["Please enter an amount greater than $0."]
       else None.

Definition statusError (s : JsValue) : option (list string) :=
  match s with
  | JStr str =>
      if String.eqb str "pending" || String.eqb str "paid" then None
      else Some [("Invalid enum value. Expected 'pending' | 'paid', received '"
                    ++ str ++ "'")%string]
  | JUndefined => Some ["Required"]
  | _ => Some ["Please select an invoice status."]
  end.

Definition nameError (n : JsValue) : option (list string) :=
  match n with
  | JStr EmptyString => Some ["Please enter the name."]
  | JStr _ => None
  | JUndefined => Some ["Required"]
  | _ => Some [("Expected string, received " ++ getParsedType n)%string]
  end.

Definition emailError (e : JsValue) : option (list string) :=
  match e with
  | JStr s => if Email.test s then None else Some ["Invalid email"]
  | JUndefined => Some ["Required"]
  | _ => Some [("Expected string, received " ++ getParsedType e)%string]
  end.

(** A text of white space only. *)
Definition isBlank (s : string) : bool :=
  JsString.allChars StringToNumber.isWhiteSpace s.

(** [s] has the character [c]. *)
Fixpoint hasChar (c : ascii) (s : string) : bool :=
  match s with
  | EmptyString => false
  | String c' r => Ascii.eqb c' c || hasChar c r
  end.

(* ================================================================== *)
(** * The ways an action ends *)
(* ================================================================== *)

(** The three ways a create, update or add action can end, for the raw
    values [raw] of the submission: validation failed, the store rejected
    the statement, or the store accepted it. *)
Inductive Outcome (w : World) (raw : JsObject)
    (invalid failure listing : string)
  : Completion State * list Event -> Prop :=
  | Invalid (errs : FieldErrors) :
      errs <> [] ->
      Outcome w raw invalid failure listing
        (Return (mkState (Some errs) (Some raw) (Some invalid)), [])
  | Failed (q : SqlStatement) (e : Thrown) :
      store w q = Some e ->
      Outcome w raw invalid failure listing
        (Return (mkState None (Some raw) (Some failure)),
         [Sql q; ConsoleError e])
  | Redirected (q : SqlStatement) :
      store w q = None ->
      Outcome w raw invalid failure listing
        (Throw (NextRedirect listing), [Sql q; RevalidatePath listing]).

(* ================================================================== *)
(** * The add-customer form *)
(* ================================================================== *)

(** The component [Form]: what it renders from the state that
    [useActionState] holds, and how a submission changes that state. *)
Module AddForm.

(** [Boolean(v)] *)
Definition truthy (v : JsValue) : bool :=
  match v with
  | JUndefined | JNull => false
  | JStr EmptyString => false
  | JStr _ => true
  | JNum (S754_zero _) | JNum S754_nan => false
  | JNum _ => true
  | JFile _ => true
  end.

(** [a || b] *)
Definition or (a b : JsValue) : JsValue := if truthy a then a else b.

Definition initialState : CustomersState := mkState (Some []) (Some []) None.

(** What [renderError] returns: a paragraph with its key and its text. *)
Record Paragraph : Type := mkParagraph {
  className : string;
  key : string;
  text : string
}.

Definition renderError (error : string) : Paragraph :=
  mkParagraph "mt-2 text-sm text-red-500" error error.

(** [state?.values?.field || ''] *)
Definition defaultValue (state : CustomersState) (field : string) : JsValue :=
  or (match values state with
      | Some v => getProp v field
      | None => JUndefined
      end)
     (JStr EmptyString).

(** [state.errors?.field && state.errors.field.map(renderError)]: the
    paragraphs shown. *)
Definition errorParagraphs (state : CustomersState) (field : string)
  : list Paragraph :=
  match errors state with
  | Some fe =>
      match fieldError fe field with
      | Some messages => map renderError messages
      | None => []
      end
  | None => []
  end.

(** [state.message && renderError(state.message)]: the paragraph shown, if
    any. *)
Definition messageParagraph (state : CustomersState) : list Paragraph :=
  match message state with
  | Some EmptyString => []
  | Some m => [renderError m]
  | None => []
  end.

(** What the form shows of the state. *)
Record View : Type := mkView {
  nameDefaultValue : JsValue;
  nameErrors : list Paragraph;
  emailDefaultValue : JsValue;
  emailErrors : list Paragraph;
  formMessage : list Paragraph
}.

Definition render (state : CustomersState) : View :=
  mkView (defaultValue state "name") (errorParagraphs state "name")
         (defaultValue state "email") (errorParagraphs state "email")
         (messageParagraph state).

(** [useActionState(addCustomer, initialState)]: the state after the form
    was submitted with [formData], when the action returned one; [None]
    when the action threw and the form is left. *)
Definition formAction (w : World) (state : CustomersState)
    (formData : FormData.t) : option CustomersState :=
  match fst (run (addCustomer state formData) w) with
  | Return state' => Some state'
  | Throw _ => None
  end.

End AddForm.

(* ================================================================== *)
(** * The range of the clock *)
(* ================================================================== *)

Module TimeRange.

(** The time values of a [Date]: 100 000 000 days either side of the
    epoch. *)
Definition minTime : Z := -8640000000000000.
Definition maxTime : Z := 8640000000000000.

(** The first and the last millisecond of the years 0 to 9999. *)
Definition year0 : Z := -62167219200000.
Definition year9999End : Z := 253402300799999.

Definition isDigit (c : ascii) : bool :=
  (Nat.leb 48 (nat_of_ascii c) && Nat.leb (nat_of_ascii c) 57)%bool.

End TimeRange.

(** The characters of an address that the e-mail pattern accepts: letters,
    digits and the nine signs of the pattern's classes. *)
Definition emailChar (c : ascii) : bool :=
  Email.isAlnum c || Email.oneOf "_'+-.@" c.

(* ================================================================== *)
(** * The middleware matcher *)
(* ================================================================== *)

(** [config.matcher] of [middleware.ts], as a regular expression that has
    to match a whole pathname: a slash, then any run of characters, provided
    that what follows the slash neither starts with [api], [_next/static] or
    [_next/image] nor is a run of characters closed by [.png] at the end of
    the pathname. *)
Module Middleware.

Inductive Regex : Type :=
  | Lit (text : string)          (* the characters of [text] *)
  | AnyStar                      (* [.*] *)
  | Alt (a b : Regex)            (* [a|b] *)
  | Seq (a b : Regex)            (* [ab] *)
  | NotAhead (r : Regex)         (* [(?!r)] *)
  | AtEnd.                       (* [$] *)

(** The dot matches every character but a line terminator (LF and CR among
    the code units below 256). *)
Definition isLineTerminator (c : ascii) : bool :=
  Nat.eqb (nat_of_ascii c) 10 || Nat.eqb (nat_of_ascii c) 13.

(** What is left of [s] after the prefix [text]. *)
Fixpoint afterPrefix (text s : string) : option string :=
  match text, s with
  | EmptyString, _ => Some s
  | String a text', String b s' =>
      if Ascii.eqb a b then afterPrefix text' s' else None
  | String _ _, EmptyString => None
  end.

(** [.*] followed by [k]: some run of characters that are not line
    terminators, after which [k] accepts the rest. *)
Fixpoint anyStar (k : string -> bool) (s : string) : bool :=
  k s ||
  match s with
  | String c r => negb (isLineTerminator c) && anyStar k r
  | EmptyString => false
  end.

(** [r] matches at the start of [s] and [k] accepts what follows. *)
Fixpoint matches (r : Regex) (s : string) (k : string -> bool) : bool :=
  match r with
  | Lit text =>
      match afterPrefix text s with
      | Some rest => k rest
      | None => false
      end
  | AnyStar => anyStar k s
  | Alt a b => matches a s k || matches b s k
  | Seq a b => matches a s (fun rest => matches b rest k)
  | NotAhead r' => if matches r' s (fun _ => true) then false else k s
  | AtEnd => match s with EmptyString => k s | _ => false end
  end.

Definition matcher : Regex :=
  Seq (Lit "/")
      (Seq (NotAhead
              (Alt (Lit "api")
                 (Alt (Lit "_next/static")
                    (Alt (Lit "_next/image")
                       (Seq AnyStar (Seq (Lit ".png") AtEnd))))))
           AnyStar).

(** The middleware runs on the pathnames that the matcher matches from
    their first to their last character. *)
Definition runsOn (pathname : string) : bool :=
  matches matcher pathname
    (fun rest => match rest with EmptyString => true | _ => false end).

(** [s.endsWith(suffix)] *)
Fixpoint endsWith (suffix s : string) : bool :=
  String.eqb s suffix ||
  match s with
  | String _ r => endsWith suffix r
  | EmptyString => false
  end.

Definition noLineTerminator (s : string) : bool :=
  JsString.allChars (fun c => negb (isLineTerminator c)) s.

End Middleware.

(* ================================================================== *)
(** * Whole amounts *)
(* ================================================================== *)

Module WholeAmount.

(** The number that a run of decimal digits writes, after [acc]. *)
Fixpoint value (acc : Z) (s : string) : Z :=
  match s with
  | EmptyString => acc
  | String c r => value (acc * 10 + (Z.of_nat (nat_of_ascii c) - 48)) r
  end.

(** A text of one decimal digit or more, and nothing else. *)
Definition isDigits (s : string) : bool :=
  match s with
  | EmptyString => false
  | _ => JsString.allChars TimeRange.isDigit s
  end.

(** The greatest whole amount whose hundredfold has at most 53 binary
    digits. *)
Definition maxWhole : Z := 90071992547409.

(** The mantissa of a whole number, shifted to 53 digits. *)
Definition normal (p : positive) : positive :=
  Pos.shiftl p (Z.to_N (53 - Z.pos (digits2_pos p))).

End WholeAmount.

(* ================================================================== *)
(** * Amounts in cents *)
(* ================================================================== *)

Module Cents.

(** [r] is a number of the binary64 format: its mantissa and exponent are
    those of the format. *)
Definition isBinary64 (r : number) : bool := valid_binary prec emax r.

(** [r] has exactly one hundred times the value of [x], for two finite
    positive numbers [m * 2 ^ e] and [m' * 2 ^ e']: the two sides are
    compared as whole numbers, at the lesser of the two exponents. *)
Definition isHundredfold (x r : number) : Prop :=
  match x, r with
  | S754_finite false m e, S754_finite false m' e' =>
      Z.pos m' * 2 ^ (e' - Z.min e e')
      = 100 * (Z.pos m * 2 ^ (e - Z.min e e'))
  | _, _ => False
  end.

(** An invoice submission with the amount "1.1". *)
Definition oneTen : FormData.t :=
  [ ("customerId", FormData.EntryString "c-42");
    ("amount", FormData.EntryString "1.1");
    ("status", FormData.EntryString "paid") ].

End Cents.

(* ================================================================== *)
(** * Properties of validation *)
(* ================================================================== *)

Arguments Number : simpl never.
Arguments JsNumber.mul : simpl never.
Arguments JsNumber.leb : simpl never.
Arguments JsNumber.ltb : simpl never.
Arguments JsDate.toISOString : simpl never.
Arguments JsDate.dateString : simpl never.

Section NumberFacts.

Variable x : number.

(** [0 < x] holds when [x] is a number and [x <= 0] does not. *)
Lemma ltb_zero_iff :
  ltb (ofZ 0) x = negb (isNaN x) && negb (leb x (ofZ 0)).
Proof. destruct x as [[|]|[|]| |[|] m e]; reflexivity. Qed.

Lemma leb_zero_not_nan : leb x (ofZ 0) = true -> isNaN x = false.
Proof. destruct x as [[|]|[|]| |[|] m e]; cbv; congruence. Qed.

End NumberFacts.

Lemma invoiceRaw_object (fd : FormData.t) :
  invoiceRaw fd =
  invoiceObject (FormData.get fd "customerId") (FormData.get fd "amount")
    (FormData.get fd "status").
Proof. reflexivity. Qed.

(** What parsing an invoice object against the create schema yields. *)
Lemma parseObject_CreateInvoice (c a s : JsValue) :
  parseObject CreateInvoice (invoiceObject c a s) =
  (customerIdIssues c ++ amountIssues a ++ statusIssues s,
   invoiceObject c (JNum (Number a)) s).
Proof.
  unfold CreateInvoice, invoiceObject, customerIdIssues, amountIssues,
    statusIssues, amountMessage.
  cbn -[Number JsNumber.leb ofZ].
  destruct (isNaN (Number a)) eqn:Hnan.
  - destruct c; cbn; destruct s as [| |str| |]; cbn;
      try destruct (String.eqb str "pending");
      try destruct (String.eqb str "paid"); reflexivity.
  - destruct (leb (Number a) (ofZ 0)) eqn:Hle;
      destruct c; cbn; destruct s as [| |str| |]; cbn;
      try destruct (String.eqb str "pending");
      try destruct (String.eqb str "paid"); reflexivity.
Qed.

Lemma safeParse_CreateInvoice (c a s : JsValue) :
  safeParse CreateInvoice (invoiceObject c a s) =
  match customerIdIssues c ++ amountIssues a ++ statusIssues s with
  | [] => SafeParseSuccess (invoiceObject c (JNum (Number a)) s)
  | issues => SafeParseError issues
  end.
Proof.
  unfold safeParse. rewrite parseObject_CreateInvoice.
  now destruct (customerIdIssues c ++ amountIssues a ++ statusIssues s).
Qed.

Lemma success_CreateInvoice (c a s : JsValue) :
  success (safeParse CreateInvoice (invoiceObject c a s)) =
  isString c && ltb (ofZ 0) (Number a) && isInvoiceStatus s.
Proof.
  rewrite safeParse_CreateInvoice, ltb_zero_iff.
  unfold customerIdIssues, amountIssues, statusIssues.
  destruct (isNaN (Number a)), (leb (Number a) (ofZ 0)), c;
    cbn -[isInvoiceStatus]; try reflexivity;
    destruct s as [| |str| |]; try reflexivity;
    destruct (isInvoiceStatus (JStr str)); reflexivity.
Qed.

(** A validated invoice: the customer and the status as submitted, the
    amount coerced to a number. *)
Lemma safeParse_CreateInvoice_data (c a s : JsValue) (data : JsObject) :
  safeParse CreateInvoice (invoiceObject c a s) = SafeParseSuccess data ->
  data = invoiceObject c (JNum (Number a)) s.
Proof.
  rewrite safeParse_CreateInvoice.
  destruct (customerIdIssues c ++ amountIssues a ++ statusIssues s);
    congruence.
Qed.

(** An amount that coerces to a value [<= 0] gets the custom message, and
    only that one, whatever the other two fields are. *)
Lemma amount_error_of_nonpositive (c a s : JsValue) :
  leb (Number a) (ofZ 0) = true ->
  exists issues,
    safeParse CreateInvoice (invoiceObject c a s) = SafeParseError issues /\
    fieldError (fieldErrors issues) "amount" = Some [amountMessage].
Proof.
  intros Hle. rewrite safeParse_CreateInvoice.
  unfold amountIssues. rewrite (leb_zero_not_nan _ Hle), Hle.
  unfold customerIdIssues, statusIssues.
  destruct c; cbn -[isInvoiceStatus];
    destruct s as [| |str| |]; cbn -[isInvoiceStatus];
    try destruct (isInvoiceStatus (JStr str));
    eexists; split; reflexivity.
Qed.

(** A customer reference that is not a string gets one message: the
    library's "Required" for [undefined], the custom one otherwise,
    whatever the other two fields are. *)
Lemma customer_error_of_nonstring (c a s : JsValue) :
  isString c = false ->
  exists issues,
    safeParse CreateInvoice (invoiceObject c a s) = SafeParseError issues /\
    fieldError (fieldErrors issues) "customerId" =
      Some [match c with
            | JUndefined => "Required"
            | _ => "Please select a customer."
            end].
Proof.
  intros Hc. rewrite safeParse_CreateInvoice.
  unfold customerIdIssues, amountIssues, statusIssues. rewrite Hc.
  destruct (isNaN (Number a)); [|destruct (leb (Number a) (ofZ 0))];
    destruct c; try discriminate Hc; cbn -[isInvoiceStatus];
    destruct s as [| |str| |]; cbn -[isInvoiceStatus];
    try destruct (isInvoiceStatus (JStr str));
    eexists; split; reflexivity.
Qed.

(** [formData.get] never yields [undefined]. *)
Lemma get_defined (fd : FormData.t) (name : string) :
  FormData.get fd name <> JUndefined.
Proof.
  induction fd as [|[n [v|f]] fd IH]; simpl; [discriminate| |];
    destruct (String.eqb n name); (discriminate || exact IH).
Qed.

Lemma UpdateInvoice_shape : UpdateInvoice = CreateInvoice.
Proof. reflexivity. Qed.

Lemma isInvoiceStatus_iff (s : JsValue) :
  isInvoiceStatus s = true <-> s = JStr "pending" \/ s = JStr "paid".
Proof.
  destruct s as [| |str| |]; simpl;
    try (split; [discriminate | intros [H|H]; discriminate H]).
  rewrite orb_true_iff, !String.eqb_eq.
  split; intros [H|H]; try (injection H as H); subst; auto.
Qed.

(** A field that reads [null] fails each of the three invoice rules. *)
Lemma success_CreateInvoice_null (c a s : JsValue) :
  c = JNull \/ a = JNull \/ s = JNull ->
  success (safeParse CreateInvoice (invoiceObject c a s)) = false.
Proof.
  rewrite success_CreateInvoice.
  intros [-> | [-> | ->]].
  - reflexivity.
  - change (ltb (ofZ 0) (Number JNull)) with false.
    now rewrite andb_false_r.
  - apply andb_false_r.
Qed.

Arguments Email.test : simpl never.

Lemma customerRaw_object (fd : FormData.t) :
  customerRaw fd =
  customerObject (FormData.get fd "name") (FormData.get fd "email").
Proof. reflexivity. Qed.

Lemma success_AddCustomer (n e : JsValue) :
  success (safeParse AddCustomerSchema (customerObject n e)) =
  isNonEmptyString n && isEmail e.
Proof.
  unfold safeParse, AddCustomerSchema, customerObject.
  destruct n as [| |[|c r]| |], e as [| |str| |]; cbn; try reflexivity;
    destruct (Email.test str); reflexivity.
Qed.

(** A validated customer: both strings as submitted. *)
Lemma safeParse_AddCustomer_data (n e : JsValue) (data : JsObject) :
  safeParse AddCustomerSchema (customerObject n e) = SafeParseSuccess data ->
  data = customerObject n e.
Proof.
  unfold safeParse, AddCustomerSchema, customerObject.
  destruct n as [| |[|c r]| |], e as [| |str| |]; cbn; try discriminate;
    destruct (Email.test str); cbn; congruence.
Qed.

Lemma success_AddCustomer_null (n e : JsValue) :
  n = JNull \/ e = JNull ->
  success (safeParse AddCustomerSchema (customerObject n e)) = false.
Proof.
  rewrite success_AddCustomer.
  intros [-> | ->]; [reflexivity | apply andb_false_r].
Qed.

(** A result of [safeParse] is a success with data or a failure with
    issues, as its [success] flag says. *)
Lemma success_true (r : SafeParseReturnType) :
  success r = true -> exists data, r = SafeParseSuccess data.
Proof. destruct r; [eauto | discriminate]. Qed.

Lemma success_false (r : SafeParseReturnType) :
  success r = false -> exists issues, r = SafeParseError issues.
Proof. destruct r; [discriminate | eauto]. Qed.

(** [formData.get] of a name that the submission does not have. *)
Lemma get_absent (fd : FormData.t) (name : string) :
  FormData.has fd name = false -> FormData.get fd name = JNull.
Proof.
  induction fd as [|[n e] fd IH]; simpl; [reflexivity|].
  destruct (String.eqb n name); [discriminate | exact IH].
Qed.

(* ================================================================== *)
(** * Properties of the date *)
(* ================================================================== *)

Module DateFacts.
Import JsString JsDate Calendar.

Lemma split_app (sep : ascii) (a b : string) :
  allChars (fun c => negb (Ascii.eqb c sep)) a = true ->
  split sep (a ++ String sep b) = a :: split sep b.
Proof.
  induction a as [|c a IH]; simpl; intros H.
  - now rewrite Ascii.eqb_refl.
  - apply andb_true_iff in H as [Hc Ha].
    apply negb_true_iff in Hc. rewrite Hc, (IH Ha). reflexivity.
Qed.

Lemma allChars_app (p : ascii -> bool) (a b : string) :
  allChars p (a ++ b) = allChars p a && allChars p b.
Proof.
  induction a as [|c a IH]; simpl; [reflexivity|].
  now rewrite IH, andb_assoc.
Qed.

Lemma digitChar_notT (z : Z) : notT (digitChar (z mod 10)) = true.
Proof.
  pose proof (Z.mod_pos_bound z 10 eq_refl) as Hr.
  assert (Hcases : z mod 10 = 0 \/ z mod 10 = 1 \/ z mod 10 = 2 \/
                   z mod 10 = 3 \/ z mod 10 = 4 \/ z mod 10 = 5 \/
                   z mod 10 = 6 \/ z mod 10 = 7 \/ z mod 10 = 8 \/
                   z mod 10 = 9) by lia.
  repeat (destruct Hcases as [-> | Hcases]; [reflexivity|]).
  now rewrite Hcases.
Qed.

Lemma decimal_notT (width : nat) (z : Z) :
  allChars notT (decimal width z) = true.
Proof.
  revert z. induction width as [|w IH]; intros z; simpl; [reflexivity|].
  rewrite allChars_app, IH. cbn [allChars andb]. now rewrite digitChar_notT.
Qed.

Lemma yearString_notT (y : Z) : allChars notT (yearString y) = true.
Proof.
  unfold yearString.
  destruct (Z.leb 0 y && Z.leb y 9999); [apply decimal_notT|].
  destruct (Z.leb 0 y); cbn [allChars]; rewrite decimal_notT; reflexivity.
Qed.

Lemma dateString_notT (t : Z) : allChars notT (dateString t) = true.
Proof.
  unfold dateString.
  rewrite !allChars_app, yearString_notT, !decimal_notT. reflexivity.
Qed.

(** [toISOString().split('T')[0]] is the date part of the ISO string. *)
Lemma split_toISOString (t : Z) :
  exists rest, split "T" (toISOString t) = dateString t :: rest.
Proof.
  exists (split "T" (timeString t)).
  exact (split_app "T" (dateString t) (timeString t) (dateString_notT t)).
Qed.

Ltac euclid := Z.to_euclidean_division_equations; lia.

Lemma DayFromYear_succ (y : Z) :
  DayFromYear (y + 1) = DayFromYear y + DaysInYear y.
Proof.
  unfold DayFromYear, DaysInYear, isLeapYear.
  destruct (Z.eqb_spec (y mod 4) 0), (Z.eqb_spec (y mod 100) 0),
    (Z.eqb_spec (y mod 400) 0); cbn [andb orb negb]; euclid.
Qed.

(** [YearFromTime t] is the year whose days contain the day of [t]. *)
Lemma YearFromTime_spec (t : Z) :
  DayFromYear (YearFromTime t) <= Day t < DayFromYear (YearFromTime t + 1).
Proof.
  unfold YearFromTime. set (d := Day t).
  set (y := 1970 + d * 400 / 146097).
  assert (Hlo : DayFromYear (y - 1) <= d)
    by (subst y; unfold DayFromYear; euclid).
  assert (Hhi : d < DayFromYear (y + 1 + 1))
    by (subst y; unfold DayFromYear; euclid).
  destruct (Z.ltb_spec d (DayFromYear y)).
  - replace (y - 1 + 1) with y by lia. lia.
  - destruct (Z.leb_spec (DayFromYear (y + 1)) d); lia.
Qed.

Lemma DayWithinYear_range (t : Z) :
  0 <= DayWithinYear t < 365 + InLeapYear t.
Proof.
  pose proof (YearFromTime_spec t) as H.
  rewrite DayFromYear_succ in H.
  unfold DayWithinYear, InLeapYear, DaysInYear in *.
  destruct (isLeapYear (YearFromTime t)); lia.
Qed.

(** Year, month and day of [t] name the day of [t]: the month is one of the
    twelve, the day lies within the month, and counting the days from the
    start of the year gives [Day t] back. *)
Lemma calendar_date (t : Z) :
  let l := InLeapYear t in
  let m := MonthFromTime t in
  let d := DateFromTime t in
  0 <= m <= 11 /\
  1 <= d <= daysInMonth l m /\
  Day t = DayFromYear (YearFromTime t) + daysBeforeMonth l m + (d - 1).
Proof.
  pose proof (DayWithinYear_range t) as Hr.
  assert (Hl : InLeapYear t = 0 \/ InLeapYear t = 1)
    by (unfold InLeapYear; destruct (isLeapYear _); auto).
  cbv zeta. unfold DateFromTime, MonthFromTime.
  assert (Hd : Day t = DayFromYear (YearFromTime t) + DayWithinYear t)
    by (unfold DayWithinYear; lia).
  rewrite Hd. clear Hd.
  set (w := DayWithinYear t) in *. set (l := InLeapYear t) in *.
  repeat match goal with
         | |- context [Z.ltb ?a ?b] => destruct (Z.ltb_spec a b)
         end;
    cbn [daysInMonth daysBeforeMonth]; destruct Hl as [-> | ->]; cbn; lia.
Qed.

End DateFacts.

(* ================================================================== *)
(** * What one invocation of an action does *)
(* ================================================================== *)

Lemma today_run (w : World) (tr : list Event) :
  today w tr = (Return (JStr (JsDate.dateString (clock w))), tr).
Proof.
  unfold today, bind, newDate, ret.
  destruct (DateFacts.split_toISOString (clock w)) as [rest ->].
  reflexivity.
Qed.

Lemma createInvoice_run (prev : State) (fd : FormData.t) (w : World) :
  run (createInvoice prev fd) w =
  match safeParse CreateInvoice (invoiceRaw fd) with
  | SafeParseError issues =>
      (Return (mkState (Some (fieldErrors issues)) (Some (invoiceRaw fd))
                 (Some "Missing Fields. Failed to Create Invoice.")), [])
  | SafeParseSuccess data =>
      afterStatement w (createInvoiceStatement data (clock w)) (invoiceRaw fd)
        "Database Error: Failed to Create Invoice." "/dashboard/invoices"
  end.
Proof.
  unfold run, createInvoice, afterStatement.
  destruct (safeParse CreateInvoice (invoiceRaw fd)) as [data|issues];
    [|reflexivity].
  unfold bind at 1. rewrite today_run.
  fold (createInvoiceStatement data (clock w)).
  unfold bind, tryCatch, sql, consoleError, revalidatePath, redirect, throw, ret.
  destruct (store w (createInvoiceStatement data (clock w))); reflexivity.
Qed.

Lemma updateInvoice_run (id : string) (prev : State) (fd : FormData.t)
    (w : World) :
  run (updateInvoice id prev fd) w =
  match safeParse UpdateInvoice (invoiceRaw fd) with
  | SafeParseError issues =>
      (Return (mkState (Some (fieldErrors issues)) (Some (invoiceRaw fd))
                 (Some "Missing Fields. Failed to Update Invoice.")), [])
  | SafeParseSuccess data =>
      afterStatement w (updateInvoiceStatement data id) (invoiceRaw fd)
        "Database Error: Failed to Update Invoice." "/dashboard/invoices"
  end.
Proof.
  unfold run, updateInvoice, afterStatement.
  destruct (safeParse UpdateInvoice (invoiceRaw fd)) as [data|issues];
    [|reflexivity].
  fold (updateInvoiceStatement data id).
  unfold bind, tryCatch, sql, consoleError, revalidatePath, redirect, throw, ret.
  destruct (store w (updateInvoiceStatement data id)); reflexivity.
Qed.

Lemma addCustomer_run (prev : CustomersState) (fd : FormData.t) (w : World) :
  run (addCustomer prev fd) w =
  match safeParse AddCustomerSchema (customerRaw fd) with
  | SafeParseError issues =>
      (Return (mkState (Some (fieldErrors issues)) (Some (customerRaw fd))
                 (Some "Missing Fields. Failed to Add Customer.")), [])
  | SafeParseSuccess data =>
      afterStatement w (addCustomerStatement data) (customerRaw fd)
        "Database Error: Failed to Add Customer." "/dashboard/customers"
  end.
Proof.
  unfold run, addCustomer, afterStatement.
  destruct (safeParse AddCustomerSchema (customerRaw fd)) as [data|issues];
    [|reflexivity].
  fold (addCustomerStatement data).
  unfold bind, tryCatch, sql, consoleError, revalidatePath, redirect, throw, ret.
  destruct (store w (addCustomerStatement data)); reflexivity.
Qed.

Lemma deleteInvoice_run (id : string) (w : World) :
  run (deleteInvoice id) w =
  match store w (DeleteFromInvoices id) with
  | None => (Return tt, [Sql (DeleteFromInvoices id);
                         RevalidatePath "/dashboard/invoices"])
  | Some e => (Throw e, [Sql (DeleteFromInvoices id)])
  end.
Proof.
  unfold run, deleteInvoice, bind, sql, revalidatePath.
  destruct (store w (DeleteFromInvoices id)); reflexivity.
Qed.

Lemma deleteCustomer_run (id : string) (w : World) :
  run (deleteCustomer id) w =
  match store w (DeleteFromCustomers id) with
  | None => (Return tt, [Sql (DeleteFromCustomers id);
                         RevalidatePath "/dashboard/customers"])
  | Some e => (Throw e, [Sql (DeleteFromCustomers id)])
  end.
Proof.
  unfold run, deleteCustomer, bind, sql, revalidatePath.
  destruct (store w (DeleteFromCustomers id)); reflexivity.
Qed.

Lemma authenticate_run (prev : option string) (fd : FormData.t) (w : World) :
  run (authenticate prev fd) w =
  (match auth w "credentials" fd with
   | None => Return None
   | Some (AuthError type) =>
       Return (Some (if String.eqb type "CredentialsSignin"
                     then "Invalid credentials."
                     else "Something went wrong."))
   | Some e => Throw e
   end, [SignIn "credentials" fd]).
Proof.
  unfold run, authenticate, tryCatch, bind, signIn, ret, throw.
  destruct (auth w "credentials" fd) as [[type| |]|]; try reflexivity.
  cbn. destruct (String.eqb type "CredentialsSignin"); reflexivity.
Qed.

(** A failure-catching scope does intercept the navigation signal: had
    [redirect] been called inside the [try], its handler would have run. *)
Lemma tryCatch_redirect {A} (url : string) (handler : Thrown -> Action A)
    (w : World) (tr : list Event) :
  tryCatch (redirect url) handler w tr = handler (NextRedirect url) w tr.
Proof. reflexivity. Qed.

Lemma afterStatement_sql (w : World) (q q' : SqlStatement) (raw : JsObject)
    (failure listing : string) :
  In (Sql q') (snd (afterStatement w q raw failure listing)) -> q' = q.
Proof.
  unfold afterStatement.
  destruct (store w q); simpl; intros [H | [H | []]]; congruence.
Qed.

Lemma afterStatement_rejected (w : World) (q : SqlStatement) (raw : JsObject)
    (failure listing : string) (e : Thrown) :
  store w q = Some e ->
  afterStatement w q raw failure listing =
  (Return (mkState None (Some raw) (Some failure)), [Sql q; ConsoleError e]).
Proof. unfold afterStatement. now intros ->. Qed.

Lemma afterStatement_resolved (w : World) (q : SqlStatement) (raw : JsObject)
    (failure listing : string) :
  store w q = None ->
  afterStatement w q raw failure listing =
  (Throw (NextRedirect listing), [Sql q; RevalidatePath listing]).
Proof. unfold afterStatement. now intros ->. Qed.

(** The statement is the first call of the two that follow validation. *)
Lemma afterStatement_trace (w : World) (q : SqlStatement) (raw : JsObject)
    (failure listing : string) :
  exists ev, snd (afterStatement w q raw failure listing) = [Sql q; ev] /\
             forall q', ev <> Sql q'.
Proof.
  unfold afterStatement.
  destruct (store w q); eexists; (split; [reflexivity | discriminate]).
Qed.

(* ================================================================== *)
(** * The actions on the sample submissions *)
(* ================================================================== *)

(** A name with a text that is not an e-mail address: one error, on
    [email], and nothing sent. *)
Example addCustomer_bad_email :
  run (addCustomer Sample.initialState Sample.badCustomer) Sample.accepting =
  (Return (mkState (Some [("email", ["Invalid email"])])
             (Some [("name", JStr "Ada"); ("email", JStr "not-an-email")])
             (Some "Missing Fields. Failed to Add Customer.")), []).
Proof. vm_compute. reflexivity. Qed.

(** The amount "12.5" is stored as 1250. *)
Example amountInCents_exact :
  mul (Number (JStr "12.5")) (ofZ 100) = ofZ 1250.
Proof. vm_compute. reflexivity. Qed.

(** The product is the binary64 one: for "1.1" it is the number next above
    110, and for "19.99" the number next below 1999. *)
Example amountInCents_rounded :
  mul (Number (JStr "1.1")) (ofZ 100) = S754_finite false 7740561859543041 (-46)
  /\ ofZ 110 = S754_finite false 7740561859543040 (-46)
  /\ mul (Number (JStr "19.99")) (ofZ 100)
     = S754_finite false 8791694975696895 (-42)
  /\ ofZ 1999 = S754_finite false 8791694975696896 (-42).
Proof. repeat split; vm_compute; reflexivity. Qed.

(** The clock of the samples reads 2026-11-02T06:13:20.123Z. *)
Example toISOString_sample :
  JsDate.toISOString Sample.sampleTime = "2026-11-02T06:13:20.123Z".
Proof. vm_compute. reflexivity. Qed.

(* ================================================================== *)
(** * Properties of the actions *)
(* ================================================================== *)

(** C1, on the input of the specification's example and on an empty customer
    reference: the empty string passes the customer rule, so validation of
    the submission with an empty [customerId], the amount "5" and the status
    "paid" succeeds although the customer reference is not a non-empty
    string, and the one with an empty [customerId], the amount "-5" and the
    status "x" has no error on [customerId]. *)
Lemma invoice_validation_empty_customer :
  ~ (success (safeParse CreateInvoice (invoiceRaw Sample.emptyCustomerInvoice))
       = true <->
     isNonEmptyString (FormData.get Sample.emptyCustomerInvoice "customerId")
       = true /\
     ltb (ofZ 0) (Number (FormData.get Sample.emptyCustomerInvoice "amount"))
       = true /\
     isInvoiceStatus (FormData.get Sample.emptyCustomerInvoice "status")
       = true) /\
  (exists st,
     run (createInvoice Sample.initialState Sample.badInvoice) Sample.accepting
       = (Return st, []) /\
     errorsFor st "customerId" = None).
Proof.
  split.
  - intros [H _]. specialize (H eq_refl). destruct H as [H _].
    discriminate H.
  - eexists. split; [vm_compute; reflexivity | reflexivity].
Qed.

(** C1, as the code has it: invoice validation, the same for [createInvoice]
    and [updateInvoice], succeeds if and only if the customer reference is a
    string (the empty string included), the amount coerces to a number
    strictly greater than 0, and the status is exactly "pending" or "paid".
    A customer reference that is not a string is rejected with one message
    on [customerId]: "Required" for [undefined], "Please select a customer."
    for any other value; a submission read from a form never holds
    [undefined] (a missing field reads as [null]), so both actions return at
    once, with an empty trace, a state whose [customerId] errors are the one
    message "Please select a customer.".
    For an empty [customerId] with the amount "-5" and the status "x" it
    fails with errors on [amount] and [status] only.  For every submission whose amount
    coerces to a value [<= 0], both actions return at once, with an empty
    trace (no statement is sent), a state whose [amount] errors are the one
    message "Please enter an amount greater than $0.". *)
Theorem invoice_validation_rules
    (c a s : JsValue) (prev : State) (id : string) (fd : FormData.t)
    (w : World) :
  (success (safeParse CreateInvoice (invoiceObject c a s)) = true <->
   isString c = true /\ ltb (ofZ 0) (Number a) = true /\
   (s = JStr "pending" \/ s = JStr "paid")) /\
  (success (safeParse UpdateInvoice (invoiceObject c a s)) = true <->
   isString c = true /\ ltb (ofZ 0) (Number a) = true /\
   (s = JStr "pending" \/ s = JStr "paid")) /\
  (isString c = false ->
   exists issues,
     safeParse CreateInvoice (invoiceObject c a s) = SafeParseError issues /\
     safeParse UpdateInvoice (invoiceObject c a s) = SafeParseError issues /\
     fieldError (fieldErrors issues) "customerId" =
       Some [match c with
             | JUndefined => "Required"
             | _ => "Please select a customer."
             end]) /\
  (isString (FormData.get fd "customerId") = false ->
   exists st1 st2,
     run (createInvoice prev fd) w = (Return st1, []) /\
     run (updateInvoice id prev fd) w = (Return st2, []) /\
     errorsFor st1 "customerId" = Some ["Please select a customer."] /\
     errorsFor st2 "customerId" = Some ["Please select a customer."]) /\
  (exists issues,
     safeParse CreateInvoice (invoiceRaw Sample.badInvoice)
       = SafeParseError issues /\
     fieldErrors issues =
       [("amount", ["Please enter an amount greater than $0."]);
        ("status",
         ["Invalid enum value. Expected 'pending' | 'paid', received 'x'"])]) /\
  (leb (Number (FormData.get fd "amount")) (ofZ 0) = true ->
   exists st1 st2,
     run (createInvoice prev fd) w = (Return st1, []) /\
     run (updateInvoice id prev fd) w = (Return st2, []) /\
     errorsFor st1 "amount" = Some [amountMessage] /\
     errorsFor st2 "amount" = Some [amountMessage] /\
     JsString.includes "greater than $0" amountMessage = true).
Proof.
  assert (Hiff :
    success (safeParse CreateInvoice (invoiceObject c a s)) = true <->
    isString c = true /\ ltb (ofZ 0) (Number a) = true /\
    (s = JStr "pending" \/ s = JStr "paid")).
  { rewrite success_CreateInvoice, !andb_true_iff, isInvoiceStatus_iff.
    tauto. }
  split; [exact Hiff|]. split; [rewrite UpdateInvoice_shape; exact Hiff|].
  split.
  { intros Hc.
    destruct (customer_error_of_nonstring c a s Hc) as (issues & Hparse & Herr).
    exists issues. rewrite UpdateInvoice_shape. now repeat split. }
  split.
  { intros Hc.
    destruct (customer_error_of_nonstring (FormData.get fd "customerId")
                (FormData.get fd "amount") (FormData.get fd "status") Hc)
      as (issues & Hparse & Herr).
    rewrite <- invoiceRaw_object in Hparse.
    assert (Hmsg : fieldError (fieldErrors issues) "customerId"
                   = Some ["Please select a customer."]).
    { rewrite Herr. pose proof (get_defined fd "customerId") as Hdef.
      destruct (FormData.get fd "customerId"); congruence. }
    do 2 eexists.
    rewrite createInvoice_run, updateInvoice_run, UpdateInvoice_shape, Hparse.
    repeat split; exact Hmsg. }
  split.
  - eexists. split; vm_compute; reflexivity.
  - intros Hle.
    destruct (amount_error_of_nonpositive (FormData.get fd "customerId")
                (FormData.get fd "amount") (FormData.get fd "status") Hle)
      as (issues & Hparse & Herr).
    rewrite <- invoiceRaw_object in Hparse.
    do 2 eexists.
    rewrite createInvoice_run, updateInvoice_run, UpdateInvoice_shape, Hparse.
    repeat split; try exact Herr.
Qed.

Lemma invoice_validation_rules_witness :
  isString JUndefined = false /\
  isString (FormData.get [Sample.text "amount" "-5"; Sample.text "status" "x"]
              "customerId") = false /\
  leb (Number (FormData.get
                 [Sample.text "amount" "-5"; Sample.text "status" "x"]
                 "amount")) (ofZ 0) = true /\
  (exists issues,
     safeParse CreateInvoice
       (invoiceObject JUndefined (JStr "5") (JStr "paid"))
       = SafeParseError issues /\
     safeParse UpdateInvoice
       (invoiceObject JUndefined (JStr "5") (JStr "paid"))
       = SafeParseError issues /\
     fieldError (fieldErrors issues) "customerId" = Some ["Required"]) /\
  (exists st1 st2,
     run (createInvoice Sample.initialState
            [Sample.text "amount" "-5"; Sample.text "status" "x"])
       Sample.accepting = (Return st1, []) /\
     run (updateInvoice "inv-1" Sample.initialState
            [Sample.text "amount" "-5"; Sample.text "status" "x"])
       Sample.accepting = (Return st2, []) /\
     errorsFor st1 "customerId" = Some ["Please select a customer."] /\
     errorsFor st2 "customerId" = Some ["Please select a customer."]) /\
  (exists st1 st2,
     run (createInvoice Sample.initialState
            [Sample.text "amount" "-5"; Sample.text "status" "x"])
       Sample.accepting = (Return st1, []) /\
     run (updateInvoice "inv-1" Sample.initialState
            [Sample.text "amount" "-5"; Sample.text "status" "x"])
       Sample.accepting = (Return st2, []) /\
     errorsFor st1 "amount" = Some [amountMessage] /\
     errorsFor st2 "amount" = Some [amountMessage] /\
     JsString.includes "greater than $0" amountMessage = true).
Proof.
  destruct (invoice_validation_rules JUndefined (JStr "5") (JStr "paid")
              Sample.initialState "inv-1"
              [Sample.text "amount" "-5"; Sample.text "status" "x"]
              Sample.accepting)
    as (_ & _ & Hschema & Hcustomer & _ & Hamount).
  split; [reflexivity|]. split; [reflexivity|].
  split; [vm_compute; reflexivity|].
  split; [apply Hschema; reflexivity|].
  split; [apply Hcustomer; reflexivity | apply Hamount; vm_compute; reflexivity].
Defined.

(** C2: when validation of a submission fails, [createInvoice],
    [updateInvoice] and [addCustomer] return the state made of the field
    errors of the failure, the raw submitted values as read from the form,
    and the message "Missing Fields. Failed to Create Invoice." (or
    "Update Invoice", "Add Customer"); the trace is empty, so no statement
    is sent, no path is revalidated, and the action returns instead of
    throwing the navigation signal.  A status other than "pending" and
    "paid" is one such failure. *)
Theorem validation_failure_state
    (prev : State) (id : string) (fd : FormData.t) (w : World) :
  (forall issues,
     safeParse CreateInvoice (invoiceRaw fd) = SafeParseError issues ->
     run (createInvoice prev fd) w =
     (Return (mkState (Some (fieldErrors issues)) (Some (invoiceRaw fd))
                (Some "Missing Fields. Failed to Create Invoice.")), [])) /\
  (forall issues,
     safeParse UpdateInvoice (invoiceRaw fd) = SafeParseError issues ->
     run (updateInvoice id prev fd) w =
     (Return (mkState (Some (fieldErrors issues)) (Some (invoiceRaw fd))
                (Some "Missing Fields. Failed to Update Invoice.")), [])) /\
  (forall issues,
     safeParse AddCustomerSchema (customerRaw fd) = SafeParseError issues ->
     run (addCustomer prev fd) w =
     (Return (mkState (Some (fieldErrors issues)) (Some (customerRaw fd))
                (Some "Missing Fields. Failed to Add Customer.")), [])) /\
  (isInvoiceStatus (FormData.get fd "status") = false ->
   exists issues,
     run (createInvoice prev fd) w =
     (Return (mkState (Some (fieldErrors issues)) (Some (invoiceRaw fd))
                (Some "Missing Fields. Failed to Create Invoice.")), []) /\
     run (updateInvoice id prev fd) w =
     (Return (mkState (Some (fieldErrors issues)) (Some (invoiceRaw fd))
                (Some "Missing Fields. Failed to Update Invoice.")), [])) /\
  invoiceRaw fd =
    [("customerId", FormData.get fd "customerId");
     ("amount", FormData.get fd "amount");
     ("status", FormData.get fd "status")] /\
  customerRaw fd =
    [("name", FormData.get fd "name"); ("email", FormData.get fd "email")].
Proof.
  split; [|split; [|split; [|split; [|split; reflexivity]]]].
  - intros issues H. now rewrite createInvoice_run, H.
  - intros issues H. now rewrite updateInvoice_run, H.
  - intros issues H. now rewrite addCustomer_run, H.
  - intros Hstatus.
    assert (Hfail : success (safeParse CreateInvoice (invoiceRaw fd)) = false).
    { rewrite invoiceRaw_object, success_CreateInvoice, Hstatus.
      apply andb_false_r. }
    destruct (success_false _ Hfail) as [issues Hissues].
    exists issues.
    rewrite createInvoice_run, updateInvoice_run, UpdateInvoice_shape, Hissues.
    split; reflexivity.
Qed.

Lemma validation_failure_state_witness :
  run (createInvoice Sample.initialState Sample.badInvoice) Sample.accepting =
  (Return (mkState
             (Some [("amount", ["Please enter an amount greater than $0."]);
                    ("status", ["Invalid enum value. Expected 'pending' | 'paid', received 'x'"])])
             (Some [("customerId", JStr EmptyString); ("amount", JStr "-5");
                    ("status", JStr "x")])
             (Some "Missing Fields. Failed to Create Invoice.")), []) /\
  run (updateInvoice "inv-1" Sample.initialState Sample.badInvoice)
    Sample.accepting =
  (Return (mkState
             (Some [("amount", ["Please enter an amount greater than $0."]);
                    ("status", ["Invalid enum value. Expected 'pending' | 'paid', received 'x'"])])
             (Some [("customerId", JStr EmptyString); ("amount", JStr "-5");
                    ("status", JStr "x")])
             (Some "Missing Fields. Failed to Update Invoice.")), []) /\
  run (addCustomer Sample.initialState Sample.badInvoice) Sample.accepting =
  (Return (mkState
             (Some [("name", ["Expected string, received null"]);
                    ("email", ["Expected string, received null"])])
             (Some [("name", JNull); ("email", JNull)])
             (Some "Missing Fields. Failed to Add Customer.")), []).
Proof.
  destruct (validation_failure_state Sample.initialState "inv-1"
              Sample.badInvoice Sample.accepting) as (H1 & H2 & H3 & _).
  split; [|split].
  - apply (H1 _ eq_refl).
  - apply (H2 _ eq_refl).
  - apply (H3 _ eq_refl).
Defined.

(** C3: for a submission that passes validation, when the store rejects the
    statement that the action sends with an error [e], the action logs [e]
    with [console.error] and returns the state with the raw submitted values
    and the message "Database Error: Failed to Create Invoice." (or "Update
    Invoice", "Add Customer"), with no field errors; it returns rather than
    throws, no path is revalidated, and the returned state does not depend
    on [e]. *)
Theorem persistence_failure_state
    (prev : State) (id : string) (fd : FormData.t) (w : World) (e : Thrown) :
  (forall data,
     safeParse CreateInvoice (invoiceRaw fd) = SafeParseSuccess data ->
     store w (createInvoiceStatement data (clock w)) = Some e ->
     run (createInvoice prev fd) w =
     (Return (mkState None (Some (invoiceRaw fd))
                (Some "Database Error: Failed to Create Invoice.")),
      [Sql (createInvoiceStatement data (clock w)); ConsoleError e])) /\
  (forall data,
     safeParse UpdateInvoice (invoiceRaw fd) = SafeParseSuccess data ->
     store w (updateInvoiceStatement data id) = Some e ->
     run (updateInvoice id prev fd) w =
     (Return (mkState None (Some (invoiceRaw fd))
                (Some "Database Error: Failed to Update Invoice.")),
      [Sql (updateInvoiceStatement data id); ConsoleError e])) /\
  (forall data,
     safeParse AddCustomerSchema (customerRaw fd) = SafeParseSuccess data ->
     store w (addCustomerStatement data) = Some e ->
     run (addCustomer prev fd) w =
     (Return (mkState None (Some (customerRaw fd))
                (Some "Database Error: Failed to Add Customer.")),
      [Sql (addCustomerStatement data); ConsoleError e])).
Proof.
  split; [|split]; intros data Hvalid Hrejected.
  - rewrite createInvoice_run, Hvalid. now apply afterStatement_rejected.
  - rewrite updateInvoice_run, Hvalid. now apply afterStatement_rejected.
  - rewrite addCustomer_run, Hvalid. now apply afterStatement_rejected.
Qed.

Lemma persistence_failure_state_witness :
  run (createInvoice Sample.initialState Sample.goodInvoice)
    (Sample.rejecting Sample.connectionLost) =
  (Return (mkState None (Some (invoiceRaw Sample.goodInvoice))
             (Some "Database Error: Failed to Create Invoice.")),
   [Sql (InsertIntoInvoices (JStr "c-42") (JNum (ofZ 1250)) (JStr "paid")
           (JStr "2026-11-02"));
    ConsoleError Sample.connectionLost]) /\
  run (updateInvoice "inv-1" Sample.initialState Sample.goodInvoice)
    (Sample.rejecting Sample.connectionLost) =
  (Return (mkState None (Some (invoiceRaw Sample.goodInvoice))
             (Some "Database Error: Failed to Update Invoice.")),
   [Sql (UpdateInvoices (JStr "c-42") (JNum (ofZ 1250)) (JStr "paid")
           "inv-1");
    ConsoleError Sample.connectionLost]) /\
  run (addCustomer Sample.initialState Sample.goodCustomer)
    (Sample.rejecting Sample.connectionLost) =
  (Return (mkState None (Some (customerRaw Sample.goodCustomer))
             (Some "Database Error: Failed to Add Customer.")),
   [Sql (InsertIntoCustomers (JStr "Ada") (JStr "ada@example.com")
           (JStr "/customers/avatar-placeholder.webp"));
    ConsoleError Sample.connectionLost]).
Proof.
  destruct (persistence_failure_state Sample.initialState "inv-1"
              Sample.goodInvoice (Sample.rejecting Sample.connectionLost)
              Sample.connectionLost) as (Hcreate & Hupdate & _).
  destruct (persistence_failure_state Sample.initialState "inv-1"
              Sample.goodCustomer (Sample.rejecting Sample.connectionLost)
              Sample.connectionLost) as (_ & _ & Hadd).
  split; [|split].
  - pose proof (Hcreate (invoiceObject (JStr "c-42")
                               (JNum (Number (JStr "12.5"))) (JStr "paid")))
      as H.
    vm_compute in H |- *. apply H; reflexivity.
  - pose proof (Hupdate (invoiceObject (JStr "c-42")
                               (JNum (Number (JStr "12.5"))) (JStr "paid")))
      as H.
    vm_compute in H |- *. apply H; reflexivity.
  - pose proof (Hadd (customerObject (JStr "Ada") (JStr "ada@example.com")))
      as H.
    vm_compute in H |- *. apply H; reflexivity.
Defined.

(** C4: for a submission that passes validation, when the store accepts the
    statement that the action sends, the action revalidates the listing path
    of the collection once, after the statement and before anything else,
    and then completes by throwing the navigation signal for that same
    path: the signal leaves the action, it is not turned into a "Database
    Error" state. *)
Theorem success_revalidates_then_redirects
    (prev : State) (id : string) (fd : FormData.t) (w : World) :
  (forall data,
     safeParse CreateInvoice (invoiceRaw fd) = SafeParseSuccess data ->
     store w (createInvoiceStatement data (clock w)) = None ->
     run (createInvoice prev fd) w =
     (Throw (NextRedirect "/dashboard/invoices"),
      [Sql (createInvoiceStatement data (clock w));
       RevalidatePath "/dashboard/invoices"])) /\
  (forall data,
     safeParse UpdateInvoice (invoiceRaw fd) = SafeParseSuccess data ->
     store w (updateInvoiceStatement data id) = None ->
     run (updateInvoice id prev fd) w =
     (Throw (NextRedirect "/dashboard/invoices"),
      [Sql (updateInvoiceStatement data id);
       RevalidatePath "/dashboard/invoices"])) /\
  (forall data,
     safeParse AddCustomerSchema (customerRaw fd) = SafeParseSuccess data ->
     store w (addCustomerStatement data) = None ->
     run (addCustomer prev fd) w =
     (Throw (NextRedirect "/dashboard/customers"),
      [Sql (addCustomerStatement data);
       RevalidatePath "/dashboard/customers"])).
Proof.
  split; [|split]; intros data Hvalid Haccepted.
  - rewrite createInvoice_run, Hvalid. now apply afterStatement_resolved.
  - rewrite updateInvoice_run, Hvalid. now apply afterStatement_resolved.
  - rewrite addCustomer_run, Hvalid. now apply afterStatement_resolved.
Qed.

Lemma success_revalidates_then_redirects_witness :
  run (createInvoice Sample.initialState Sample.goodInvoice)
    Sample.accepting =
  (Throw (NextRedirect "/dashboard/invoices"),
   [Sql (InsertIntoInvoices (JStr "c-42") (JNum (ofZ 1250)) (JStr "paid")
           (JStr "2026-11-02"));
    RevalidatePath "/dashboard/invoices"]) /\
  run (updateInvoice "inv-1" Sample.initialState Sample.goodInvoice)
    Sample.accepting =
  (Throw (NextRedirect "/dashboard/invoices"),
   [Sql (UpdateInvoices (JStr "c-42") (JNum (ofZ 1250)) (JStr "paid")
           "inv-1");
    RevalidatePath "/dashboard/invoices"]) /\
  run (addCustomer Sample.initialState Sample.goodCustomer) Sample.accepting =
  (Throw (NextRedirect "/dashboard/customers"),
   [Sql (InsertIntoCustomers (JStr "Ada") (JStr "ada@example.com")
           (JStr "/customers/avatar-placeholder.webp"));
    RevalidatePath "/dashboard/customers"]).
Proof.
  destruct (success_revalidates_then_redirects Sample.initialState "inv-1"
              Sample.goodInvoice Sample.accepting)
    as (Hcreate & Hupdate & _).
  destruct (success_revalidates_then_redirects Sample.initialState "inv-1"
              Sample.goodCustomer Sample.accepting) as (_ & _ & Hadd).
  split; [|split].
  - pose proof (Hcreate (invoiceObject (JStr "c-42")
                               (JNum (Number (JStr "12.5"))) (JStr "paid")))
      as H.
    vm_compute in H |- *. apply H; reflexivity.
  - pose proof (Hupdate (invoiceObject (JStr "c-42")
                               (JNum (Number (JStr "12.5"))) (JStr "paid")))
      as H.
    vm_compute in H |- *. apply H; reflexivity.
  - pose proof (Hadd (customerObject (JStr "Ada") (JStr "ada@example.com")))
      as H.
    vm_compute in H |- *. apply H; reflexivity.
Defined.

(** C6: for a customer submission that passes validation, the statement
    binds the submitted name and e-mail and, as image reference, the path
    "/customers/avatar-placeholder.webp", whatever else was submitted. *)
Theorem customer_image_is_placeholder
    (prev : CustomersState) (fd : FormData.t) (w : World)
    (Hvalid : success (safeParse AddCustomerSchema (customerRaw fd)) = true) :
  exists ev,
    snd (run (addCustomer prev fd) w) =
      [Sql (InsertIntoCustomers (FormData.get fd "name")
              (FormData.get fd "email")
              (JStr "/customers/avatar-placeholder.webp")); ev] /\
    forall q, ev <> Sql q.
Proof.
  destruct (success_true _ Hvalid) as [data Hdata].
  pose proof Hdata as Hshape. rewrite customerRaw_object in Hshape.
  apply safeParse_AddCustomer_data in Hshape.
  rewrite addCustomer_run, Hdata. cbv beta iota.
  destruct (afterStatement_trace w (addCustomerStatement data)
              (customerRaw fd) "Database Error: Failed to Add Customer."
              "/dashboard/customers") as (ev & Htrace & Hev).
  exists ev. split; [|exact Hev]. subst data. exact Htrace.
Qed.

Lemma customer_image_is_placeholder_witness :
  FormData.get Sample.goodCustomer "image_url" = JStr "/customers/ada.png" /\
  exists ev,
    snd (run (addCustomer Sample.initialState Sample.goodCustomer)
           Sample.accepting) =
      [Sql (InsertIntoCustomers (JStr "Ada") (JStr "ada@example.com")
              (JStr "/customers/avatar-placeholder.webp")); ev] /\
    forall q, ev <> Sql q.
Proof.
  split; [reflexivity|].
  apply (customer_image_is_placeholder Sample.initialState
           Sample.goodCustomer Sample.accepting eq_refl).
Defined.

(** C7: [authenticate] calls the credentials sign-in once.  When the call
    throws an [AuthError] of type "CredentialsSignin" it returns "Invalid
    credentials."; for an [AuthError] of any other type it returns
    "Something went wrong."; when the call returns it returns [undefined];
    and when the call throws anything that is not an [AuthError], that same
    value is thrown again. *)
Theorem authenticate_results
    (prev : option string) (fd : FormData.t) (w : World) :
  (auth w "credentials" fd = Some (AuthError "CredentialsSignin") ->
   run (authenticate prev fd) w =
   (Return (Some "Invalid credentials."), [SignIn "credentials" fd])) /\
  (forall type,
     auth w "credentials" fd = Some (AuthError type) ->
     type <> "CredentialsSignin" ->
     run (authenticate prev fd) w =
     (Return (Some "Something went wrong."), [SignIn "credentials" fd])) /\
  (auth w "credentials" fd = None ->
   run (authenticate prev fd) w = (Return None, [SignIn "credentials" fd])) /\
  (forall e,
     auth w "credentials" fd = Some e ->
     (forall type, e <> AuthError type) ->
     run (authenticate prev fd) w = (Throw e, [SignIn "credentials" fd])).
Proof.
  rewrite authenticate_run.
  repeat split.
  - now intros ->.
  - intros type -> Hother.
    apply String.eqb_neq in Hother. now rewrite Hother.
  - now intros ->.
  - intros e -> Hother. destruct e as [type| |]; try reflexivity.
    now destruct (Hother type).
Qed.

Lemma authenticate_results_witness :
  run (authenticate None []) (Sample.signingIn (Some (AuthError "CredentialsSignin")))
    = (Return (Some "Invalid credentials."), [SignIn "credentials" []]) /\
  run (authenticate None []) (Sample.signingIn (Some (AuthError "CallbackRouteError")))
    = (Return (Some "Something went wrong."), [SignIn "credentials" []]) /\
  run (authenticate None []) (Sample.signingIn None)
    = (Return None, [SignIn "credentials" []]) /\
  run (authenticate None []) (Sample.signingIn (Some (NextRedirect "/dashboard")))
    = (Throw (NextRedirect "/dashboard"), [SignIn "credentials" []]) /\
  run (authenticate None []) (Sample.signingIn (Some Sample.connectionLost))
    = (Throw Sample.connectionLost, [SignIn "credentials" []]).
Proof.
  split; [|split; [|split; [|split]]].
  - apply (authenticate_results None []
             (Sample.signingIn (Some (AuthError "CredentialsSignin")))).
    reflexivity.
  - apply (authenticate_results None []
             (Sample.signingIn (Some (AuthError "CallbackRouteError")))
           ) with (type := "CallbackRouteError");
      [reflexivity | discriminate].
  - apply (authenticate_results None [] (Sample.signingIn None)).
    reflexivity.
  - apply (authenticate_results None []
             (Sample.signingIn (Some (NextRedirect "/dashboard"))));
      [reflexivity | discriminate].
  - apply (authenticate_results None []
             (Sample.signingIn (Some Sample.connectionLost)));
      [reflexivity | discriminate].
Defined.

(** C8, on a store that rejects the delete: the error leaves [deleteInvoice]
    as it came, thrown to the caller; nothing catches it and no result is
    returned in its place. *)
Lemma delete_error_propagates :
  run (deleteInvoice "inv-1") (Sample.rejecting Sample.connectionLost) =
    (Throw Sample.connectionLost, [Sql (DeleteFromInvoices "inv-1")]) /\
  run (deleteCustomer "c-42") (Sample.rejecting Sample.connectionLost) =
    (Throw Sample.connectionLost, [Sql (DeleteFromCustomers "c-42")]) /\
  forall result : unit,
    fst (run (deleteInvoice "inv-1") (Sample.rejecting Sample.connectionLost))
      <> Return result.
Proof. repeat split. discriminate. Qed.

(** C8, as the code has it: [deleteInvoice] and [deleteCustomer] validate
    nothing and send one delete statement for the identifier they are
    given.  When the store accepts it they revalidate the listing path of
    the collection and return, without a navigation signal.  When the store
    rejects it the error is not caught: the action throws that same error
    and revalidates nothing. *)
Theorem delete_actions (id : string) (w : World) :
  run (deleteInvoice id) w =
    match store w (DeleteFromInvoices id) with
    | None => (Return tt, [Sql (DeleteFromInvoices id);
                           RevalidatePath "/dashboard/invoices"])
    | Some e => (Throw e, [Sql (DeleteFromInvoices id)])
    end /\
  run (deleteCustomer id) w =
    match store w (DeleteFromCustomers id) with
    | None => (Return tt, [Sql (DeleteFromCustomers id);
                           RevalidatePath "/dashboard/customers"])
    | Some e => (Throw e, [Sql (DeleteFromCustomers id)])
    end.
Proof. split; [apply deleteInvoice_run | apply deleteCustomer_run]. Qed.

(** C9, on the empty submission: the value read for a field that is absent
    is [null], which is neither the empty string nor [undefined]. *)
Lemma absent_field_reads_null :
  FormData.get [] "customerId" = JNull /\
  FormData.get [] "customerId" <> JStr EmptyString /\
  FormData.get [] "customerId" <> JUndefined /\
  values (mkState None (Some (invoiceRaw [])) None) =
    Some [("customerId", JNull); ("amount", JNull); ("status", JNull)].
Proof. repeat split; discriminate. Qed.

(** C9, as the code has it: for a submission in which an expected field is
    absent, the raw value that the action reads for it is [null], and
    validation of the submission fails: the action returns the "Missing
    Fields" state of a validation failure, with that [null] among the
    echoed values, and does nothing else. *)
Theorem absent_field_fails_validation
    (prev : State) (id : string) (fd : FormData.t) (w : World) :
  (forall name, FormData.has fd name = false -> FormData.get fd name = JNull)
  /\
  (FormData.has fd "customerId" = false \/ FormData.has fd "amount" = false \/
   FormData.has fd "status" = false ->
   exists issues,
     safeParse CreateInvoice (invoiceRaw fd) = SafeParseError issues /\
     safeParse UpdateInvoice (invoiceRaw fd) = SafeParseError issues /\
     run (createInvoice prev fd) w =
       (Return (mkState (Some (fieldErrors issues)) (Some (invoiceRaw fd))
                  (Some "Missing Fields. Failed to Create Invoice.")), []) /\
     run (updateInvoice id prev fd) w =
       (Return (mkState (Some (fieldErrors issues)) (Some (invoiceRaw fd))
                  (Some "Missing Fields. Failed to Update Invoice.")), []))
  /\
  (FormData.has fd "name" = false \/ FormData.has fd "email" = false ->
   exists issues,
     safeParse AddCustomerSchema (customerRaw fd) = SafeParseError issues /\
     run (addCustomer prev fd) w =
       (Return (mkState (Some (fieldErrors issues)) (Some (customerRaw fd))
                  (Some "Missing Fields. Failed to Add Customer.")), [])).
Proof.
  split; [intros name; apply get_absent|]. split.
  - intros Habsent.
    assert (Hfail : success (safeParse CreateInvoice (invoiceRaw fd)) = false).
    { rewrite invoiceRaw_object. apply success_CreateInvoice_null.
      destruct Habsent as [H | [H | H]]; apply get_absent in H; auto. }
    destruct (success_false _ Hfail) as [issues Hissues].
    exists issues.
    rewrite createInvoice_run, updateInvoice_run, UpdateInvoice_shape, Hissues.
    repeat split.
  - intros Habsent.
    assert (Hfail :
      success (safeParse AddCustomerSchema (customerRaw fd)) = false).
    { rewrite customerRaw_object. apply success_AddCustomer_null.
      destruct Habsent as [H | H]; apply get_absent in H; auto. }
    destruct (success_false _ Hfail) as [issues Hissues].
    exists issues. rewrite addCustomer_run, Hissues. repeat split.
Qed.

Lemma absent_field_fails_validation_witness :
  FormData.get [Sample.text "customerId" "c-42"; Sample.text "status" "paid"]
    "amount" = JNull /\
  exists issues,
    run (createInvoice Sample.initialState
           [Sample.text "customerId" "c-42"; Sample.text "status" "paid"])
      Sample.accepting =
    (Return (mkState (Some (fieldErrors issues))
               (Some [("customerId", JStr "c-42"); ("amount", JNull);
                      ("status", JStr "paid")])
               (Some "Missing Fields. Failed to Create Invoice.")), []).
Proof.
  destruct (absent_field_fails_validation Sample.initialState "inv-1"
              [Sample.text "customerId" "c-42"; Sample.text "status" "paid"]
              Sample.accepting) as (Hget & Hinvoice & _).
  split; [apply Hget; reflexivity|].
  destruct Hinvoice as (issues & _ & _ & Hrun & _);
    [right; left; reflexivity|].
  exists issues. exact Hrun.
Defined.

(** C10: the schemas of [createInvoice] and [updateInvoice] are the form
    schema without [id] and [date], both of them; on every raw object they
    give the same result, so one succeeds exactly when the other does, and
    on failure the field errors are the same.  The two actions return, for
    the same submission, states with the same errors and the same values
    when validation fails. *)
Theorem create_update_same_validation
    (raw : JsObject) (prev : State) (id : string) (fd : FormData.t)
    (w : World) :
  map fst CreateInvoice = ["customerId"; "amount"; "status"] /\
  map fst UpdateInvoice = ["customerId"; "amount"; "status"] /\
  safeParse CreateInvoice raw = safeParse UpdateInvoice raw /\
  success (safeParse CreateInvoice raw) = success (safeParse UpdateInvoice raw)
  /\
  errorsOf (safeParse CreateInvoice raw) = errorsOf (safeParse UpdateInvoice raw)
  /\
  match safeParse CreateInvoice (invoiceRaw fd) with
  | SafeParseError issues =>
      exists st1 st2,
        run (createInvoice prev fd) w = (Return st1, []) /\
        run (updateInvoice id prev fd) w = (Return st2, []) /\
        errors st1 = Some (fieldErrors issues) /\
        errors st2 = Some (fieldErrors issues) /\
        values st1 = values st2
  | SafeParseSuccess _ =>
      success (safeParse UpdateInvoice (invoiceRaw fd)) = true
  end.
Proof.
  repeat (split; [reflexivity|]).
  rewrite createInvoice_run, updateInvoice_run, UpdateInvoice_shape.
  destruct (safeParse CreateInvoice (invoiceRaw fd)); [reflexivity|].
  do 2 eexists. repeat split.
Qed.

(* ================================================================== *)
(** * Further properties: errors by field *)
(* ================================================================== *)

Lemma fieldErrors_invoice (c a s : JsValue) :
  fieldErrors (customerIdIssues c ++ amountIssues a ++ statusIssues s) =
  entry "customerId" (customerIdError c) ++ entry "amount" (amountError a)
    ++ entry "status" (statusError s).
Proof.
  unfold customerIdIssues, amountIssues, statusIssues, customerIdError,
    amountError, statusError, amountMessage, isInvoiceStatus.
  destruct (isNaN (Number a)); [|destruct (leb (Number a) (ofZ 0))];
    destruct c; cbn;
    destruct s as [| |str| |]; cbn;
    try destruct (String.eqb str "pending");
    try destruct (String.eqb str "paid"); reflexivity.
Qed.

Lemma invoice_errors_nil (c a s : JsValue) :
  entry "customerId" (customerIdError c) ++ entry "amount" (amountError a)
    ++ entry "status" (statusError s) = [] ->
  customerIdIssues c ++ amountIssues a ++ statusIssues s = [].
Proof.
  unfold customerIdIssues, amountIssues, statusIssues, customerIdError,
    amountError, statusError, amountMessage, isInvoiceStatus.
  destruct (isNaN (Number a)); [|destruct (leb (Number a) (ofZ 0))];
    destruct c; cbn; try discriminate;
    destruct s as [| |str| |]; cbn; try discriminate;
    destruct (String.eqb str "pending"); cbn; try discriminate;
    destruct (String.eqb str "paid"); cbn; try discriminate; reflexivity.
Qed.

(** X1: when invoice validation fails, the [errors] of the returned state
    hold one key for each failing field and no key for the others, in the
    order [customerId], [amount], [status], each with one message that
    depends on that field alone.  A customer that is not a string gets
    "Please select a customer."; an amount that coerces to [NaN] gets
    "Expected number, received nan" and one that coerces to a number [<= 0]
    gets "Please enter an amount greater than $0."; a status that is not a
    string gets "Please select an invoice status.", while a status text
    other than "pending" and "paid" gets the library's message that quotes
    the received text. *)
Theorem invoice_errors_by_field
    (prev : State) (id : string) (fd : FormData.t) (w : World)
    (Hfails : success (safeParse CreateInvoice (invoiceRaw fd)) = false) :
  let errs :=
    entry "customerId" (customerIdError (FormData.get fd "customerId"))
      ++ entry "amount" (amountError (FormData.get fd "amount"))
      ++ entry "status" (statusError (FormData.get fd "status")) in
  errs <> [] /\
  run (createInvoice prev fd) w =
    (Return (mkState (Some errs) (Some (invoiceRaw fd))
               (Some "Missing Fields. Failed to Create Invoice.")), []) /\
  run (updateInvoice id prev fd) w =
    (Return (mkState (Some errs) (Some (invoiceRaw fd))
               (Some "Missing Fields. Failed to Update Invoice.")), []).
Proof.
  cbv zeta.
  rewrite createInvoice_run, updateInvoice_run, UpdateInvoice_shape.
  rewrite invoiceRaw_object in Hfails |- *.
  rewrite safeParse_CreateInvoice in Hfails |- *.
  split.
  - intros Hnil. apply invoice_errors_nil in Hnil.
    rewrite Hnil in Hfails. discriminate.
  - rewrite <- fieldErrors_invoice.
    destruct (customerIdIssues (FormData.get fd "customerId")
                ++ amountIssues (FormData.get fd "amount")
                ++ statusIssues (FormData.get fd "status"));
      [discriminate | split; reflexivity].
Qed.

Lemma invoice_errors_by_field_witness :
  run (createInvoice Sample.initialState
         [Sample.text "amount" "twelve"; Sample.text "status" "draft"])
    Sample.accepting =
  (Return (mkState
             (Some [("customerId", ["Please select a customer."]);
                    ("amount", ["Expected number, received nan"]);
                    ("status", ["Invalid enum value. Expected 'pending' | 'paid', received 'draft'"])])
             (Some [("customerId", JNull); ("amount", JStr "twelve");
                    ("status", JStr "draft")])
             (Some "Missing Fields. Failed to Create Invoice.")), []).
Proof.
  apply (invoice_errors_by_field Sample.initialState "inv-1"
           [Sample.text "amount" "twelve"; Sample.text "status" "draft"]
           Sample.accepting eq_refl).
Defined.

Lemma fieldErrors_customer (n e : JsValue) (issues : list ZodIssue) :
  safeParse AddCustomerSchema (customerObject n e) = SafeParseError issues ->
  fieldErrors issues =
  entry "name" (nameError n) ++ entry "email" (emailError e).
Proof.
  unfold safeParse, AddCustomerSchema, customerObject, nameError, emailError.
  destruct n as [| |[|c r]|x|f], e as [| |str|y|g]; cbn;
    try destruct (Email.test str); cbn;
    intros H; try discriminate H; injection H as <-; reflexivity.
Qed.

Lemma customer_errors_nonempty (n e : JsValue) :
  success (safeParse AddCustomerSchema (customerObject n e)) = false ->
  entry "name" (nameError n) ++ entry "email" (emailError e) <> [].
Proof.
  rewrite success_AddCustomer.
  unfold nameError, emailError, isNonEmptyString, isEmail.
  destruct n as [| |[|c r]|x|f]; destruct e as [| |str|y|g]; cbn;
    try discriminate.
  intros ->. discriminate.
Qed.

(** X2: customer validation succeeds exactly when the name is a non-empty
    string and the e-mail is a string that the e-mail pattern accepts.
    When it fails, [addCustomer] returns at once the "Missing Fields" state
    whose [errors] hold one key for each failing field, [name] before
    [email], each with one message: "Please enter the name." for an empty
    name, "Invalid email" for a text that the pattern rejects, and
    "Expected string, received null" for a field that is absent. *)
Theorem customer_validation_rules
    (prev : CustomersState) (fd : FormData.t) (w : World) :
  let name := FormData.get fd "name" in
  let email := FormData.get fd "email" in
  let errs := entry "name" (nameError name) ++ entry "email" (emailError email)
  in
  (success (safeParse AddCustomerSchema (customerRaw fd)) = true <->
   exists n e, name = JStr n /\ n <> EmptyString /\
               email = JStr e /\ Email.test e = true) /\
  (success (safeParse AddCustomerSchema (customerRaw fd)) = false ->
   errs <> [] /\
   run (addCustomer prev fd) w =
     (Return (mkState (Some errs) (Some (customerRaw fd))
                (Some "Missing Fields. Failed to Add Customer.")), [])) /\
  nameError JNull = Some ["Expected string, received null"] /\
  emailError JNull = Some ["Expected string, received null"].
Proof.
  cbv zeta. split; [|split; [|split; reflexivity]].
  - rewrite customerRaw_object, success_AddCustomer, andb_true_iff.
    destruct (FormData.get fd "name") as [| |[|c r]|x|f];
      destruct (FormData.get fd "email") as [| |str|y|g]; cbn;
      split;
      try (intros [? ?]; discriminate);
      try (intros (n & e & Hn & Hne & He & Ht); discriminate);
      try (intros (n & e & Hn & Hne & He & Ht);
           injection Hn as <-; now destruct Hne).
    + intros [_ Ht]. exists (String c r), str. repeat split; auto.
      discriminate.
    + intros (n & e & Hn & Hne & He & Ht). injection He as <-. auto.
  - intros Hfails.
    destruct (success_false _ Hfails) as [issues Hissues].
    rewrite addCustomer_run, Hissues.
    rewrite customerRaw_object in Hissues.
    pose proof (fieldErrors_customer _ _ _ Hissues) as Herrs.
    rewrite Herrs. split; [|reflexivity].
    apply customer_errors_nonempty. now rewrite <- customerRaw_object.
Qed.

Lemma customer_validation_rules_witness :
  run (addCustomer Sample.initialState
         [Sample.text "name" EmptyString; Sample.text "email" "ada@example"])
    Sample.accepting =
  (Return (mkState
             (Some [("name", ["Please enter the name."]);
                    ("email", ["Invalid email"])])
             (Some [("name", JStr EmptyString);
                    ("email", JStr "ada@example")])
             (Some "Missing Fields. Failed to Add Customer.")), []).
Proof.
  apply (customer_validation_rules Sample.initialState
           [Sample.text "name" EmptyString; Sample.text "email" "ada@example"]
           Sample.accepting).
  reflexivity.
Defined.

(* ================================================================== *)
(** * Further properties: the amount text *)
(* ================================================================== *)

Module AmountText.
Import StringToNumber JsString.

Lemma trimStart_blank (s : string) :
  allChars isWhiteSpace s = true -> trimStart s = EmptyString.
Proof.
  induction s as [|c r IH]; cbn [allChars trimStart]; [reflexivity|].
  intros H. apply andb_true_iff in H as [Hc Hr]. now rewrite Hc, IH.
Qed.

Lemma trimStart_app_blank (ws s : string) :
  allChars isWhiteSpace ws = true -> trimStart (ws ++ s) = trimStart s.
Proof.
  induction ws as [|c r IH]; cbn [allChars trimStart append]; [reflexivity|].
  intros H. apply andb_true_iff in H as [Hc Hr]. now rewrite Hc, IH.
Qed.

Lemma trimEnd_blank (s : string) :
  allChars isWhiteSpace s = true -> trimEnd s = EmptyString.
Proof.
  induction s as [|c r IH]; cbn [allChars trimEnd]; [reflexivity|].
  intros H. apply andb_true_iff in H as [Hc Hr]. now rewrite IH, Hc.
Qed.

Lemma trimEnd_app_blank (s ws : string) :
  allChars isWhiteSpace ws = true -> trimEnd (s ++ ws) = trimEnd s.
Proof.
  intros Hws. induction s as [|c r IH]; cbn [trimEnd append].
  - now apply trimEnd_blank.
  - now rewrite IH.
Qed.

(** What [trimStart] leaves is the text itself, or nothing when the text is
    blank. *)
Lemma trimStart_app (s ws : string) :
  trimStart (s ++ ws) = (trimStart s ++ ws)%string \/
  (trimStart s = EmptyString /\ allChars isWhiteSpace s = true).
Proof.
  induction s as [|c r IH]; cbn [trimStart append allChars].
  - right. split; reflexivity.
  - destruct (isWhiteSpace c); cbn [andb].
    + exact IH.
    + left. reflexivity.
Qed.

Lemma trim_padded (before s after : string) :
  allChars isWhiteSpace before = true ->
  allChars isWhiteSpace after = true ->
  trim (before ++ s ++ after) = trim s.
Proof.
  intros Hb Ha. unfold trim. rewrite trimStart_app_blank by exact Hb.
  destruct (trimStart_app s after) as [-> | [Hs Hblank]].
  - now apply trimEnd_app_blank.
  - rewrite Hs. rewrite trimStart_blank, trimEnd_blank; try reflexivity.
    clear Hs. induction s as [|c r IH]; cbn [allChars append] in *;
      [exact Ha|].
    apply andb_true_iff in Hblank as [Hc Hr]. now rewrite Hc, IH.
Qed.

Lemma stringToNumber_padded (before s after : string) :
  allChars isWhiteSpace before = true ->
  allChars isWhiteSpace after = true ->
  stringToNumber (before ++ s ++ after) = stringToNumber s.
Proof.
  intros Hb Ha. unfold stringToNumber. now rewrite trim_padded.
Qed.


End AmountText.



Lemma afterStatement_calls (w : World) (q : SqlStatement)
    (raw raw' : JsObject) (failure listing : string) :
  snd (afterStatement w q raw failure listing) =
  snd (afterStatement w q raw' failure listing).
Proof. unfold afterStatement. destruct (store w q); reflexivity. Qed.

(** X4: white space around the amount text does not count.  Two invoice
    submissions with the same customer and status, whose amounts are a text
    and that text with white space before and after it, have the same
    validated amount, and each invoice action makes the same calls for the
    one as for the other: the same statement with the same parameters, or
    none. *)
Theorem amount_padding_ignored
    (prev : State) (id : string) (fd fd' : FormData.t) (w : World)
    (before amount after : string)
    (Hcustomer : FormData.get fd' "customerId" = FormData.get fd "customerId")
    (Hstatus : FormData.get fd' "status" = FormData.get fd "status")
    (Hamount : FormData.get fd "amount" = JStr amount)
    (Hpadded : FormData.get fd' "amount"
               = JStr (before ++ amount ++ after))
    (Hbefore : isBlank before = true) (Hafter : isBlank after = true) :
  Number (FormData.get fd' "amount") = Number (FormData.get fd "amount") /\
  snd (run (createInvoice prev fd') w) = snd (run (createInvoice prev fd) w) /\
  snd (run (updateInvoice id prev fd') w)
    = snd (run (updateInvoice id prev fd) w).
Proof.
  assert (Hnum : Number (FormData.get fd' "amount")
                 = Number (FormData.get fd "amount")).
  { rewrite Hamount, Hpadded.
    apply AmountText.stringToNumber_padded; assumption. }
  split; [exact Hnum|].
  rewrite !createInvoice_run, !updateInvoice_run, UpdateInvoice_shape.
  rewrite !invoiceRaw_object, !safeParse_CreateInvoice.
  unfold amountIssues. rewrite Hcustomer, Hstatus, Hnum.
  destruct (customerIdIssues (FormData.get fd "customerId") ++
            (if isNaN (Number (FormData.get fd "amount"))
             then [mkIssue invalid_type ["amount"]
                     "Expected number, received nan"]
             else if leb (Number (FormData.get fd "amount")) (ofZ 0)
                  then [mkIssue too_small ["amount"] amountMessage]
                  else []) ++ statusIssues (FormData.get fd "status"));
    [|split; reflexivity].
  split; apply afterStatement_calls.
Qed.

Lemma amount_padding_ignored_witness :
  snd (run (createInvoice Sample.initialState
              [Sample.text "customerId" "c-42"; Sample.text "amount" " 12.5 ";
               Sample.text "status" "paid"]) Sample.accepting) =
  snd (run (createInvoice Sample.initialState Sample.goodInvoice)
         Sample.accepting).
Proof.
  apply (amount_padding_ignored Sample.initialState "inv-1" Sample.goodInvoice
           [Sample.text "customerId" "c-42"; Sample.text "amount" " 12.5 ";
            Sample.text "status" "paid"] Sample.accepting " " "12.5" " ");
    reflexivity.
Defined.

(* ================================================================== *)
(** * Further properties: how an action ends *)
(* ================================================================== *)

Lemma afterStatement_outcome (w : World) (q : SqlStatement) (raw : JsObject)
    (invalid failure listing : string) :
  Outcome w raw invalid failure listing
    (afterStatement w q raw failure listing).
Proof.
  unfold afterStatement. destruct (store w q) as [e|] eqn:Hq.
  - now apply Failed.
  - now apply Redirected.
Qed.

Lemma Outcome_throw (w : World) (raw : JsObject)
    (invalid failure listing : string) (r : Completion State * list Event)
    (e : Thrown) :
  Outcome w raw invalid failure listing r ->
  fst r = Throw e -> e = NextRedirect listing.
Proof. intros [errs H | q e' H | q H]; cbn; congruence. Qed.

(** X5: every invocation of [createInvoice], [updateInvoice] and
    [addCustomer] ends in one of three ways.  Validation failed: the action
    returns a state with a non-empty [errors] and has called nothing.  The
    store rejected the one statement sent: the action logged the error and
    returns a state without [errors].  The store accepted it: the action
    revalidated the listing path and throws the navigation signal for it.
    In the two returned states the raw values are echoed and a message is
    set.  So the only thing these actions ever throw is the navigation
    signal: an error of the store never leaves them. *)
Theorem action_outcomes
    (prev : State) (id : string) (fd : FormData.t) (w : World) :
  Outcome w (invoiceRaw fd) "Missing Fields. Failed to Create Invoice."
    "Database Error: Failed to Create Invoice." "/dashboard/invoices"
    (run (createInvoice prev fd) w) /\
  Outcome w (invoiceRaw fd) "Missing Fields. Failed to Update Invoice."
    "Database Error: Failed to Update Invoice." "/dashboard/invoices"
    (run (updateInvoice id prev fd) w) /\
  Outcome w (customerRaw fd) "Missing Fields. Failed to Add Customer."
    "Database Error: Failed to Add Customer." "/dashboard/customers"
    (run (addCustomer prev fd) w) /\
  (forall e,
     fst (run (createInvoice prev fd) w) = Throw e \/
     fst (run (updateInvoice id prev fd) w) = Throw e ->
     e = NextRedirect "/dashboard/invoices") /\
  (forall e,
     fst (run (addCustomer prev fd) w) = Throw e ->
     e = NextRedirect "/dashboard/customers").
Proof.
  assert (Hi :
    Outcome w (invoiceRaw fd) "Missing Fields. Failed to Create Invoice."
      "Database Error: Failed to Create Invoice." "/dashboard/invoices"
      (run (createInvoice prev fd) w) /\
    Outcome w (invoiceRaw fd) "Missing Fields. Failed to Update Invoice."
      "Database Error: Failed to Update Invoice." "/dashboard/invoices"
      (run (updateInvoice id prev fd) w)).
  { rewrite createInvoice_run, updateInvoice_run, UpdateInvoice_shape.
    destruct (safeParse CreateInvoice (invoiceRaw fd)) as [data|issues] eqn:Hp.
    - split; apply afterStatement_outcome.
    - assert (Herrs : fieldErrors issues <> []).
      { rewrite invoiceRaw_object, safeParse_CreateInvoice in Hp.
        intros Hnil.
        destruct (customerIdIssues (FormData.get fd "customerId")
                    ++ amountIssues (FormData.get fd "amount")
                    ++ statusIssues (FormData.get fd "status")) eqn:Hi;
          [discriminate|].
        injection Hp as <-. rewrite <- Hi, fieldErrors_invoice in Hnil.
        apply invoice_errors_nil in Hnil. congruence. }
      split; now apply Invalid. }
  destruct Hi as [H1 H2].
  assert (Hc : Outcome w (customerRaw fd)
                 "Missing Fields. Failed to Add Customer."
                 "Database Error: Failed to Add Customer."
                 "/dashboard/customers" (run (addCustomer prev fd) w)).
  { rewrite addCustomer_run.
    destruct (safeParse AddCustomerSchema (customerRaw fd))
      as [data|issues] eqn:Hp.
    - apply afterStatement_outcome.
    - apply Invalid. rewrite customerRaw_object in Hp.
      rewrite (fieldErrors_customer _ _ _ Hp).
      apply customer_errors_nonempty. now rewrite Hp. }
  repeat split; try assumption.
  - intros e [He | He].
    + exact (Outcome_throw _ _ _ _ _ _ _ H1 He).
    + exact (Outcome_throw _ _ _ _ _ _ _ H2 He).
  - intros e He. exact (Outcome_throw _ _ _ _ _ _ _ Hc He).
Qed.

(* ================================================================== *)
(** * Further properties: the entries of a submission *)
(* ================================================================== *)

Lemma get_app (fd extra : FormData.t) (name : string) :
  FormData.get (fd ++ extra) name =
  if FormData.has fd name then FormData.get fd name
  else FormData.get extra name.
Proof.
  induction fd as [|[n e] fd IH]; cbn; [reflexivity|].
  destruct (String.eqb n name); [reflexivity | exact IH].
Qed.

(** X6: an action reads the first value of each field it expects and
    nothing else.  When a submission has the expected fields, entries that
    come after them, whatever their names, the expected ones repeated
    included, change nothing: the action ends the same way after the same
    calls. *)
Theorem later_entries_ignored
    (prev : State) (id : string) (fd extra : FormData.t) (w : World) :
  (FormData.has fd "customerId" = true -> FormData.has fd "amount" = true ->
   FormData.has fd "status" = true ->
   run (createInvoice prev (fd ++ extra)) w = run (createInvoice prev fd) w /\
   run (updateInvoice id prev (fd ++ extra)) w
     = run (updateInvoice id prev fd) w) /\
  (FormData.has fd "name" = true -> FormData.has fd "email" = true ->
   run (addCustomer prev (fd ++ extra)) w = run (addCustomer prev fd) w).
Proof.
  split.
  - intros Hc Ha Hs.
    rewrite !createInvoice_run, !updateInvoice_run.
    unfold invoiceRaw. rewrite !get_app, Hc, Ha, Hs. split; reflexivity.
  - intros Hn He. rewrite !addCustomer_run.
    unfold customerRaw. now rewrite !get_app, Hn, He.
Qed.

Lemma later_entries_ignored_witness :
  run (createInvoice Sample.initialState
         (Sample.goodInvoice ++ [Sample.text "amount" "-1";
                                 Sample.text "date" "1999-01-01"]))
    Sample.accepting =
  run (createInvoice Sample.initialState Sample.goodInvoice) Sample.accepting
  /\
  run (addCustomer Sample.initialState
         (Sample.goodCustomer ++ [Sample.text "name" EmptyString]))
    Sample.accepting =
  run (addCustomer Sample.initialState Sample.goodCustomer) Sample.accepting.
Proof.
  destruct (later_entries_ignored Sample.initialState "inv-1"
              Sample.goodInvoice
              [Sample.text "amount" "-1"; Sample.text "date" "1999-01-01"]
              Sample.accepting) as [Hinvoice _].
  destruct (later_entries_ignored Sample.initialState "inv-1"
              Sample.goodCustomer [Sample.text "name" EmptyString]
              Sample.accepting) as [_ Hcustomer].
  split.
  - apply Hinvoice; reflexivity.
  - apply Hcustomer; reflexivity.
Defined.

(* ================================================================== *)
(** * Further properties: the add-customer form *)
(* ================================================================== *)

Lemma get_cases (fd : FormData.t) (name : string) :
  FormData.get fd name = JNull \/
  (exists s, FormData.get fd name = JStr s) \/
  (exists f, FormData.get fd name = JFile f).
Proof.
  induction fd as [|[n [s|f]] fd IH]; cbn; auto;
    destruct (String.eqb n name); eauto.
Qed.

(** The state that the form holds after a submission that did not leave
    it. *)
Lemma formAction_state (w : World) (state st : CustomersState)
    (fd : FormData.t) :
  AddForm.formAction w state fd = Some st ->
  values st = Some (customerRaw fd) /\
  ((success (safeParse AddCustomerSchema (customerRaw fd)) = false /\
    errors st = Some (entry "name" (nameError (FormData.get fd "name"))
                        ++ entry "email"
                             (emailError (FormData.get fd "email"))) /\
    message st = Some "Missing Fields. Failed to Add Customer.") \/
   (success (safeParse AddCustomerSchema (customerRaw fd)) = true /\
    errors st = None /\
    message st = Some "Database Error: Failed to Add Customer.")).
Proof.
  unfold AddForm.formAction. rewrite addCustomer_run.
  destruct (safeParse AddCustomerSchema (customerRaw fd))
    as [data|issues] eqn:Hp.
  - unfold afterStatement.
    destruct (store w (addCustomerStatement data)); cbn; [|discriminate].
    intros H. injection H as <-. cbn. auto.
  - cbn. intros H. injection H as <-. cbn. split; [reflexivity|].
    left. rewrite customerRaw_object in Hp.
    now rewrite (fieldErrors_customer _ _ _ Hp).
Qed.

(** X7: what was typed is not lost.  When a submission of the add-customer
    form comes back (validation failed or the store rejected the insert),
    the form is rendered again with, as default value of each of its two
    inputs, the text that was submitted for it, and the empty text for a
    field that the submission did not have. *)
Theorem form_echoes_submission
    (w : World) (state st : CustomersState) (fd : FormData.t)
    (Hback : AddForm.formAction w state fd = Some st) :
  (forall n, FormData.get fd "name" = JStr n ->
             AddForm.nameDefaultValue (AddForm.render st) = JStr n) /\
  (forall e, FormData.get fd "email" = JStr e ->
             AddForm.emailDefaultValue (AddForm.render st) = JStr e) /\
  (FormData.has fd "name" = false ->
   AddForm.nameDefaultValue (AddForm.render st) = JStr EmptyString) /\
  (FormData.has fd "email" = false ->
   AddForm.emailDefaultValue (AddForm.render st) = JStr EmptyString).
Proof.
  destruct (formAction_state _ _ _ _ Hback) as [Hvalues _].
  unfold AddForm.render, AddForm.defaultValue. cbn.
  rewrite Hvalues. cbn.
  repeat split.
  - intros n ->. now destruct n.
  - intros e ->. now destruct e.
  - intros H. now rewrite (get_absent _ _ H).
  - intros H. now rewrite (get_absent _ _ H).
Qed.

Lemma form_echoes_submission_witness :
  exists st,
    AddForm.formAction Sample.accepting AddForm.initialState
      Sample.badCustomer = Some st /\
    AddForm.nameDefaultValue (AddForm.render st) = JStr "Ada" /\
    AddForm.emailDefaultValue (AddForm.render st) = JStr "not-an-email".
Proof.
  eexists. split; [reflexivity|].
  destruct (form_echoes_submission Sample.accepting AddForm.initialState _
              Sample.badCustomer eq_refl) as (Hn & He & _).
  split; [apply Hn | apply He]; reflexivity.
Defined.

(** X8: what the form shows after a submission.  The form is left exactly
    when validation passed and the store accepted the insert.  Otherwise it
    is rendered again with one message paragraph: after a validation
    failure "Missing Fields. Failed to Add Customer.", with under each
    input the messages of that field (one paragraph for a failing field,
    none for the other); after a rejected insert "Database Error: Failed to
    Add Customer.", with no paragraph under the inputs. *)
Theorem form_after_submission
    (w : World) (state : CustomersState) (fd : FormData.t) :
  let valid := success (safeParse AddCustomerSchema (customerRaw fd)) in
  let q := InsertIntoCustomers (FormData.get fd "name")
             (FormData.get fd "email")
             (JStr "/customers/avatar-placeholder.webp") in
  let shown (messages : option (list string)) :=
    match messages with
    | Some m => map AddForm.renderError m
    | None => []
    end in
  match AddForm.formAction w state fd with
  | None => valid = true /\ store w q = None
  | Some st =>
      let v := AddForm.render st in
      (valid = false /\
       AddForm.formMessage v =
         [AddForm.renderError "Missing Fields. Failed to Add Customer."] /\
       AddForm.nameErrors v = shown (nameError (FormData.get fd "name")) /\
       AddForm.emailErrors v = shown (emailError (FormData.get fd "email")) /\
       (AddForm.nameErrors v <> [] \/ AddForm.emailErrors v <> [])) \/
      (valid = true /\ (exists e, store w q = Some e) /\
       AddForm.formMessage v =
         [AddForm.renderError "Database Error: Failed to Add Customer."] /\
       AddForm.nameErrors v = [] /\ AddForm.emailErrors v = [])
  end.
Proof.
  cbv zeta. unfold AddForm.formAction. rewrite addCustomer_run.
  destruct (safeParse AddCustomerSchema (customerRaw fd))
    as [data|issues] eqn:Hp.
  - pose proof Hp as Hdata. rewrite customerRaw_object in Hdata.
    apply safeParse_AddCustomer_data in Hdata. subst data.
    unfold afterStatement, addCustomerStatement. cbn [getProp customerObject].
    cbn -[Email.test].
    destruct (store w _) as [e|] eqn:Hq; cbn.
    + right. repeat split; eauto.
    + split; reflexivity.
  - cbn. left. split; [reflexivity|]. split; [reflexivity|].
    unfold AddForm.errorParagraphs. cbn.
    pose proof Hp as Hissues. rewrite customerRaw_object in Hissues.
    rewrite (fieldErrors_customer _ _ _ Hissues).
    assert (Hne : success (safeParse AddCustomerSchema
                   (customerObject (FormData.get fd "name")
                      (FormData.get fd "email"))) = false)
      by now rewrite Hissues.
    apply customer_errors_nonempty in Hne.
    unfold nameError, emailError in *.
    destruct (FormData.get fd "name") as [| |[|c r]|x|f];
      destruct (FormData.get fd "email") as [| |str|y|g];
      try destruct (Email.test str); cbn in *;
      try (now destruct Hne);
      (split; [reflexivity|]); (split; [reflexivity|]);
      first [left; discriminate | right; discriminate].
Qed.

(* ================================================================== *)
(** * Further properties: the date text *)
(* ================================================================== *)

Module DateText.
Import JsString JsDate Calendar TimeRange DateFacts.

Lemma length_app (a b : string) :
  String.length (a ++ b) = (String.length a + String.length b)%nat.
Proof. induction a as [|c a IH]; cbn; [reflexivity | now rewrite IH]. Qed.

Lemma app_inj_length (a b c d : string) :
  String.length a = String.length c ->
  (a ++ b)%string = (c ++ d)%string -> a = c /\ b = d.
Proof.
  revert c. induction a as [|x a IH]; intros [|y c] Hlen H;
    cbn in *; try discriminate.
  - auto.
  - injection H as -> H. injection Hlen as Hlen.
    destruct (IH c Hlen H) as [-> ->]. auto.
Qed.

Lemma decimal_length (width : nat) (z : Z) :
  String.length (decimal width z) = width.
Proof.
  revert z. induction width as [|w IH]; intros z; cbn [decimal];
    [reflexivity|].
  rewrite length_app, IH. cbn. lia.
Qed.

Lemma digitChar_code (d : Z) :
  0 <= d < 10 -> nat_of_ascii (digitChar d) = (48 + Z.to_nat d)%nat.
Proof.
  intros Hd. unfold digitChar. apply nat_ascii_embedding. lia.
Qed.

Lemma digitChar_inj (a b : Z) :
  0 <= a < 10 -> 0 <= b < 10 -> digitChar a = digitChar b -> a = b.
Proof.
  intros Ha Hb H. apply (f_equal nat_of_ascii) in H.
  rewrite !digitChar_code in H by assumption. lia.
Qed.

Lemma digitChar_isDigit (d : Z) : 0 <= d < 10 -> isDigit (digitChar d) = true.
Proof.
  intros Hd. unfold isDigit. rewrite digitChar_code by assumption.
  apply andb_true_iff. split; apply Nat.leb_le; lia.
Qed.

Lemma decimal_isDigit (width : nat) (z : Z) :
  allChars isDigit (decimal width z) = true.
Proof.
  revert z. induction width as [|w IH]; intros z; cbn [decimal];
    [reflexivity|].
  rewrite allChars_app, IH. cbn [allChars andb].
  rewrite digitChar_isDigit; [reflexivity|].
  apply Z.mod_pos_bound. lia.
Qed.

Lemma decimal_inj (width : nat) (a b : Z) :
  0 <= a < 10 ^ Z.of_nat width -> 0 <= b < 10 ^ Z.of_nat width ->
  decimal width a = decimal width b -> a = b.
Proof.
  revert a b. induction width as [|w IH]; intros a b Ha Hb H.
  - cbn in Ha, Hb. lia.
  - cbn [decimal] in H.
    apply app_inj_length in H; [|now rewrite !decimal_length].
    destruct H as [Hhigh Hlow]. injection Hlow as Hlow.
    rewrite Nat2Z.inj_succ, Z.pow_succ_r in Ha, Hb by lia.
    apply digitChar_inj in Hlow; try (apply Z.mod_pos_bound; lia).
    apply IH in Hhigh; [| split | split];
      try (apply Z.div_pos; lia);
      try (apply Z.div_lt_upper_bound; lia).
    rewrite (Z.div_mod a 10), (Z.div_mod b 10) by lia. lia.
Qed.

Lemma Day_range (t : Z) :
  minTime <= t <= maxTime -> -100000000 <= Day t <= 100000000.
Proof. unfold minTime, maxTime, Day, msPerDay. intros H. euclid. Qed.

Lemma YearFromTime_range (t : Z) :
  minTime <= t <= maxTime -> -271821 <= YearFromTime t <= 275760.
Proof.
  intros H. apply Day_range in H.
  pose proof (YearFromTime_spec t) as Hy.
  unfold DayFromYear in Hy. euclid.
Qed.

Lemma YearFromTime_four_digits (t : Z) :
  year0 <= t <= year9999End -> 0 <= YearFromTime t <= 9999.
Proof.
  intros H.
  assert (Hd : -719528 <= Day t <= 2932896)
    by (unfold year0, year9999End, Day, msPerDay in *; euclid).
  pose proof (YearFromTime_spec t) as Hy.
  unfold DayFromYear in Hy. euclid.
Qed.

Lemma string_tail (a b : ascii) (x y : string) :
  String a x = String b y -> x = y.
Proof. intros H. now injection H. Qed.

Lemma decimal_first (width : nat) (z : Z) :
  exists c r, decimal (S width) z = String c r /\ isDigit c = true.
Proof.
  pose proof (decimal_length (S width) z) as Hlen.
  pose proof (decimal_isDigit (S width) z) as Hdigits.
  destruct (decimal (S width) z) as [|c r]; [discriminate|].
  cbn in Hdigits. apply andb_true_iff in Hdigits as [Hc _]. eauto.
Qed.

(** The text of a year tells the year. *)
Lemma yearString_inj (y y' : Z) (rest rest' : string) :
  -999999 <= y <= 999999 -> -999999 <= y' <= 999999 ->
  (yearString y ++ String "-" rest)%string
    = (yearString y' ++ String "-" rest')%string ->
  y = y' /\ rest = rest'.
Proof.
  intros Hy Hy'. unfold yearString.
  destruct (decimal_first 3 y) as (c & r & Hc & Hdigit).
  destruct (decimal_first 3 y') as (c' & r' & Hc' & Hdigit').
  assert (Hsame : forall (w : nat) (a b : Z),
    0 <= a < 10 ^ Z.of_nat w -> 0 <= b < 10 ^ Z.of_nat w ->
    (decimal w a ++ String "-" rest)%string
      = (decimal w b ++ String "-" rest')%string ->
    a = b /\ rest = rest').
  { intros w a b Ha Hb E.
    apply app_inj_length in E; [|now rewrite !decimal_length].
    destruct E as [Hyear Hrest]. injection Hrest as ->.
    split; [|reflexivity]. now apply (decimal_inj w). }
  destruct (Z.leb_spec 0 y) as [Hs|Hs], (Z.leb_spec y 9999) as [Hb|Hb],
    (Z.leb_spec 0 y') as [Hs'|Hs'], (Z.leb_spec y' 9999) as [Hb'|Hb'];
    cbn [andb]; try lia; intros E.
  - apply (Hsame 4%nat) in E; [exact E | cbn; lia | cbn; lia].
  - rewrite Hc in E. injection E as -> _. discriminate Hdigit.
  - rewrite Hc in E. injection E as -> _. discriminate Hdigit.
  - rewrite Hc' in E. injection E as <- _. discriminate Hdigit'.
  - change (String "+" (decimal 6 y ++ String "-" rest)
            = String "+" (decimal 6 y' ++ String "-" rest')) in E.
    apply string_tail in E.
    apply (Hsame 6%nat) in E; [exact E | cbn; lia | cbn; lia].
  - discriminate E.
  - rewrite Hc' in E. injection E as <- _. discriminate Hdigit'.
  - discriminate E.
  - change (String "-" (decimal 6 (- y) ++ String "-" rest)
            = String "-" (decimal 6 (- y') ++ String "-" rest')) in E.
    apply string_tail in E.
    apply (Hsame 6%nat) in E; [|cbn; lia|cbn; lia].
    destruct E as [E ->]. split; [lia | reflexivity].
Qed.

Lemma daysInMonth_le (l m : Z) :
  0 <= l <= 1 -> 0 <= m <= 11 -> 28 <= daysInMonth l m <= 31.
Proof.
  intros Hl Hm.
  assert (Hcases : m = 0 \/ m = 1 \/ m = 2 \/ m = 3 \/ m = 4 \/ m = 5 \/
                   m = 6 \/ m = 7 \/ m = 8 \/ m = 9 \/ m = 10 \/ m = 11)
    by lia.
  repeat (destruct Hcases as [Hc | Hcases];
          [rewrite Hc; cbv beta iota delta [daysInMonth]; lia|]).
  rewrite Hcases. cbv beta iota delta [daysInMonth]. lia.
Qed.

Lemma InLeapYear_range (t : Z) : 0 <= InLeapYear t <= 1.
Proof. unfold InLeapYear. destruct (isLeapYear _); lia. Qed.

(** Month and day of the month, as they are printed. *)
Lemma month_day_range (t : Z) :
  1 <= MonthFromTime t + 1 <= 12 /\ 1 <= DateFromTime t <= 31.
Proof.
  destruct (calendar_date t) as (Hm & Hd & _).
  pose proof (daysInMonth_le _ _ (InLeapYear_range t) Hm). lia.
Qed.

Lemma dateString_of_day (t t' : Z) :
  Day t = Day t' -> dateString t = dateString t'.
Proof.
  intros H.
  unfold dateString, DateFromTime, MonthFromTime, InLeapYear, DayWithinYear,
    YearFromTime.
  now rewrite H.
Qed.

Lemma dateString_inj (t t' : Z) :
  minTime <= t <= maxTime -> minTime <= t' <= maxTime ->
  dateString t = dateString t' -> Day t = Day t'.
Proof.
  intros Ht Ht' H.
  apply YearFromTime_range in Ht, Ht'.
  destruct (month_day_range t) as [Hm Hd].
  destruct (month_day_range t') as [Hm' Hd'].
  unfold dateString in H.
  change (yearString (YearFromTime t)
            ++ String "-" (decimal 2 (MonthFromTime t + 1)
                             ++ String "-" (decimal 2 (DateFromTime t)))
          = yearString (YearFromTime t')
            ++ String "-" (decimal 2 (MonthFromTime t' + 1)
                             ++ String "-" (decimal 2 (DateFromTime t'))))%string
    in H.
  apply yearString_inj in H; [|lia|lia].
  destruct H as [Hyear H].
  apply app_inj_length in H; [|now rewrite !decimal_length].
  destruct H as [Hmonth Hday]. apply string_tail in Hday.
  apply (decimal_inj 2) in Hmonth; [|cbn; lia|cbn; lia].
  apply (decimal_inj 2) in Hday; [|cbn; lia|cbn; lia].
  destruct (calendar_date t) as (_ & _ & ->).
  destruct (calendar_date t') as (_ & _ & ->).
  unfold InLeapYear. rewrite Hyear, Hday.
  replace (MonthFromTime t) with (MonthFromTime t') by lia. reflexivity.
Qed.

End DateText.

(** X9: while the clock reads a time of the years 0 to 9999, the date that
    [createInvoice] computes is a text of ten characters, [YYYY-MM-DD]:
    the four digits of the year, the two digits of a month from 01 to 12
    and the two digits of a day from 01 to 31. *)
Theorem date_text_shape (w : World) (tr : list Event)
    (Hrange : TimeRange.year0 <= clock w <= TimeRange.year9999End) :
  exists y m d,
    today w tr =
      (Return (JStr (JsDate.decimal 4 y ++ "-" ++ JsDate.decimal 2 m ++ "-"
                       ++ JsDate.decimal 2 d)), tr) /\
    String.length (JsDate.decimal 4 y ++ "-" ++ JsDate.decimal 2 m ++ "-"
                     ++ JsDate.decimal 2 d) = 10%nat /\
    JsString.allChars TimeRange.isDigit (JsDate.decimal 4 y) = true /\
    JsString.allChars TimeRange.isDigit (JsDate.decimal 2 m) = true /\
    JsString.allChars TimeRange.isDigit (JsDate.decimal 2 d) = true /\
    0 <= y <= 9999 /\ 1 <= m <= 12 /\ 1 <= d <= 31 /\
    y = JsDate.YearFromTime (clock w) /\
    m = JsDate.MonthFromTime (clock w) + 1 /\
    d = JsDate.DateFromTime (clock w).
Proof.
  pose proof (DateText.YearFromTime_four_digits _ Hrange) as Hy.
  destruct (DateText.month_day_range (clock w)) as [Hm Hd].
  exists (JsDate.YearFromTime (clock w)), (JsDate.MonthFromTime (clock w) + 1),
    (JsDate.DateFromTime (clock w)).
  split.
  - rewrite today_run. unfold JsDate.dateString, JsDate.yearString.
    destruct (Z.leb_spec 0 (JsDate.YearFromTime (clock w))); [|lia].
    destruct (Z.leb_spec (JsDate.YearFromTime (clock w)) 9999); [|lia].
    reflexivity.
  - rewrite !DateText.length_app, !DateText.decimal_length.
    rewrite !DateText.decimal_isDigit. repeat split; try reflexivity; lia.
Qed.

Lemma date_text_shape_witness :
  today Sample.accepting [] = (Return (JStr "2026-11-02"), []).
Proof.
  destruct (date_text_shape Sample.accepting []) as (y & m & d & H & _).
  - vm_compute. split; discriminate.
  - rewrite today_run. vm_compute. reflexivity.
Defined.

(** X10: the date tells the day.  For two clock readings within the range
    of time values, the dates that [createInvoice] computes are the same
    text exactly when the two readings fall on the same day (UTC). *)
Theorem date_text_same_day (w w' : World) (tr tr' : list Event)
    (Hrange : TimeRange.minTime <= clock w <= TimeRange.maxTime)
    (Hrange' : TimeRange.minTime <= clock w' <= TimeRange.maxTime) :
  fst (today w tr) = fst (today w' tr') <->
  JsDate.Day (clock w) = JsDate.Day (clock w').
Proof.
  rewrite !today_run. cbn [fst]. split.
  - intros H. injection H as H. now apply DateText.dateString_inj.
  - intros H. now rewrite (DateText.dateString_of_day _ _ H).
Qed.

Lemma date_text_same_day_witness :
  fst (today Sample.accepting []) =
  fst (today (mkWorld (fun _ => None) (fun _ _ => None) 1793577600000) [])
  /\
  fst (today Sample.accepting []) <>
  fst (today (mkWorld (fun _ => None) (fun _ _ => None) 1793577599999) []).
Proof.
  split.
  - apply (date_text_same_day Sample.accepting
             (mkWorld (fun _ => None) (fun _ _ => None) 1793577600000) [] []);
      vm_compute; try (split; discriminate); reflexivity.
  - intros H.
    apply (date_text_same_day Sample.accepting
             (mkWorld (fun _ => None) (fun _ _ => None) 1793577599999) [] [])
      in H; vm_compute in H |- *; try (split; discriminate); discriminate.
Defined.

(* ================================================================== *)
(** * Further properties: the customers that reach the store *)
(* ================================================================== *)

Module EmailFacts.
Import JsString Email.

Lemma split_nonempty (sep : ascii) (s : string) : split sep s <> [].
Proof.
  destruct s as [|c r]; cbn; [discriminate|].
  destruct (Ascii.eqb c sep); [discriminate|].
  destruct (split sep r); discriminate.
Qed.

Lemma split_single (sep : ascii) (s b : string) :
  split sep s = [b] -> s = b /\ hasChar sep b = false.
Proof.
  revert b. induction s as [|c r IH]; cbn; intros b H.
  - injection H as <-. auto.
  - destruct (Ascii.eqb c sep) eqn:Hc.
    + injection H as _ H. now destruct (split_nonempty sep r).
    + destruct (split sep r) as [|piece pieces] eqn:Hr;
        [now destruct (split_nonempty sep r)|].
      injection H as <- ->.
      destruct (IH piece eq_refl) as [-> Hno].
      split; [reflexivity|]. cbn. now rewrite Hc.
Qed.

Lemma split_pair (sep : ascii) (s a b : string) :
  split sep s = [a; b] ->
  s = (a ++ String sep b)%string /\
  hasChar sep a = false /\ hasChar sep b = false.
Proof.
  revert a. induction s as [|c r IH]; cbn; intros a H; [discriminate|].
  destruct (Ascii.eqb_spec c sep) as [->|Hc].
  - injection H as <- H. apply split_single in H as [-> Hno]. auto.
  - destruct (split sep r) as [|piece pieces] eqn:Hr; [discriminate|].
    injection H as <- ->.
    destruct (IH piece eq_refl) as (-> & Ha & Hb).
    repeat split; auto. cbn. rewrite Ha.
    now destruct (Ascii.eqb_spec c sep).
Qed.

Lemma split_without (sep : ascii) (s : string) :
  hasChar sep s = false -> split sep s = [s].
Proof.
  induction s as [|c r IH]; cbn; [reflexivity|].
  destruct (Ascii.eqb c sep); [discriminate|].
  intros H. now rewrite (IH H).
Qed.

(** When every piece between the separators is made of characters of [p],
    the whole text is made of those and of the separator. *)
Lemma allChars_of_pieces (p p' : ascii -> bool) (sep : ascii) (s : string) :
  (forall c, p c = true -> p' c = true) -> p' sep = true ->
  Forall (fun piece => allChars p piece = true) (split sep s) ->
  allChars p' s = true.
Proof.
  intros Hp Hsep. induction s as [|c r IH]; cbn; [reflexivity|].
  destruct (Ascii.eqb_spec c sep) as [->|Hc]; intros H.
  - rewrite Hsep. apply IH. now inversion H.
  - destruct (split sep r) as [|piece pieces] eqn:Hr;
      [now destruct (split_nonempty sep r)|].
    inversion H as [|? ? Hhead Htail]; subst. cbn in Hhead.
    apply andb_true_iff in Hhead as [Hpc Hpiece].
    rewrite (Hp _ Hpc). apply IH. now constructor.
Qed.

Lemma allChars_weaken (p p' : ascii -> bool) (s : string) :
  (forall c, p c = true -> p' c = true) ->
  allChars p s = true -> allChars p' s = true.
Proof.
  intros Hp. induction s as [|c r IH]; cbn; [reflexivity|].
  intros H. apply andb_true_iff in H as [Hc Hr].
  now rewrite (Hp _ Hc), IH.
Qed.

Lemma localLast_localChar (c : ascii) :
  localLast c = true -> localChar c = true.
Proof.
  unfold localLast, localChar. destruct (isAlnum c); [reflexivity|].
  unfold oneOf. cbn. intros H.
  repeat (apply orb_true_iff in H as [H | H];
          [rewrite H; cbn; rewrite ?orb_true_r; reflexivity|]).
  discriminate.
Qed.

Lemma localPart_chars (s : string) :
  localPart s = true -> s <> EmptyString /\ allChars localChar s = true.
Proof.
  induction s as [|c r IH]; [discriminate|].
  intros H. split; [discriminate|].
  destruct r as [|c' r'].
  - cbn in *. now rewrite (localLast_localChar _ H).
  - change (localChar c && localPart (String c' r') = true) in H.
    apply andb_true_iff in H as [Hc Hr].
    change (localChar c && allChars localChar (String c' r') = true).
    rewrite Hc. now apply IH.
Qed.

Lemma isLetter_labelChar (c : ascii) :
  isLetter c = true -> labelChar c = true.
Proof. unfold labelChar, isAlnum. now intros ->. Qed.

Lemma label_chars (s : string) :
  label s = true -> allChars labelChar s = true.
Proof.
  destruct s as [|c r]; [discriminate|]. cbn.
  intros H. apply andb_true_iff in H as [Hc Hr].
  unfold labelChar at 1. now rewrite Hc, Hr.
Qed.

Lemma domainPieces_chars (seen : bool) (pieces : list string) :
  domainPieces seen pieces = true ->
  Forall (fun piece => allChars labelChar piece = true) pieces.
Proof.
  revert seen. induction pieces as [|piece rest IH]; intros seen H;
    [constructor|].
  destruct rest as [|next rest'].
  - cbn in H. apply andb_true_iff in H as [H _].
    apply andb_true_iff in H as [_ H].
    constructor; [|constructor].
    now apply (allChars_weaken isLetter labelChar), H;
      apply isLetter_labelChar.
  - change (label piece && domainPieces true (next :: rest') = true) in H.
    apply andb_true_iff in H as [Hl Hr].
    constructor; [now apply label_chars | now apply (IH true)].
Qed.

Lemma localChar_emailChar (c : ascii) :
  localChar c = true -> emailChar c = true.
Proof.
  unfold localChar, emailChar. destruct (isAlnum c); [reflexivity|].
  unfold oneOf. cbn. intros H.
  repeat (apply orb_true_iff in H as [H | H];
          [rewrite H; cbn; rewrite ?orb_true_r; reflexivity|]).
  discriminate.
Qed.

Lemma labelChar_emailChar (c : ascii) :
  labelChar c = true -> emailChar c = true.
Proof.
  unfold labelChar, emailChar. destruct (isAlnum c); [reflexivity|].
  unfold oneOf. cbn. intros H.
  repeat (apply orb_true_iff in H as [H | H];
          [rewrite H; cbn; rewrite ?orb_true_r; reflexivity|]).
  discriminate.
Qed.

(** What the pattern asks of an address. *)
Lemma test_shape (s : string) :
  test s = true ->
  exists loc dom,
    s = (loc ++ String "@" dom)%string /\ loc <> EmptyString /\
    hasChar "@" loc = false /\ hasChar "@" dom = false /\
    hasChar "." dom = true /\ hasDoubleDot s = false /\
    allChars emailChar s = true.
Proof.
  unfold test. intros H.
  assert (H' : negb (hasDoubleDot s) &&
               match split "@" s with
               | [loc; dom] => localPart loc && domainPieces false (split "." dom)
               | _ => false
               end = true).
  { destruct s as [|c r]; [exact H|].
    destruct (Ascii.eqb_spec c "."); [subst; discriminate H|].
    destruct c as [[|] [|] [|] [|] [|] [|] [|] [|]]; try exact H;
      congruence. }
  clear H. apply andb_true_iff in H' as [Hdots H].
  apply negb_true_iff in Hdots.
  destruct (split "@" s) as [|loc [|dom [|]]] eqn:Hsplit; try discriminate.
  apply andb_true_iff in H as [Hloc Hdom].
  apply split_pair in Hsplit as (-> & Hloc_at & Hdom_at).
  apply localPart_chars in Hloc as [Hne Hloc].
  exists loc, dom. repeat split; auto.
  - destruct (hasChar "." dom) eqn:Hdot; [reflexivity|].
    rewrite (split_without _ _ Hdot) in Hdom. discriminate Hdom.
  - rewrite DateFacts.allChars_app. apply andb_true_iff. split.
    + now apply (allChars_weaken localChar emailChar), Hloc;
        apply localChar_emailChar.
    + change (emailChar "@" && allChars emailChar dom = true).
      apply andb_true_iff. split; [reflexivity|].
      apply (allChars_of_pieces labelChar emailChar ".");
        [apply labelChar_emailChar | reflexivity |].
      now apply (domainPieces_chars false).
Qed.

End EmailFacts.

(** X11: only validated customers reach the store.  Whatever is submitted
    and however the store answers, every statement that [addCustomer] sends
    is the insert of a name that is a non-empty text and of an e-mail that
    is a text with one [@], something before it, a domain with a dot after
    it, no two dots in a row, and no character other than letters, digits
    and [_ ' + - . @]; both as they were submitted, with the placeholder
    image. *)
Theorem customers_reaching_store
    (prev : CustomersState) (fd : FormData.t) (w : World) (q : SqlStatement)
    (Hsent : In (Sql q) (snd (run (addCustomer prev fd) w))) :
  exists name loc dom,
    q = InsertIntoCustomers (JStr name) (JStr (loc ++ String "@" dom))
          (JStr "/customers/avatar-placeholder.webp") /\
    FormData.get fd "name" = JStr name /\
    FormData.get fd "email" = JStr (loc ++ String "@" dom) /\
    name <> EmptyString /\ loc <> EmptyString /\
    hasChar "@" loc = false /\ hasChar "@" dom = false /\
    hasChar "." dom = true /\
    Email.hasDoubleDot (loc ++ String "@" dom) = false /\
    JsString.allChars emailChar (loc ++ String "@" dom) = true.
Proof.
  rewrite addCustomer_run in Hsent.
  destruct (safeParse AddCustomerSchema (customerRaw fd)) as [data|issues]
    eqn:Hp; [|destruct Hsent].
  apply afterStatement_sql in Hsent. subst q.
  assert (Hvalid : success (safeParse AddCustomerSchema (customerRaw fd))
                   = true) by now rewrite Hp.
  rewrite customerRaw_object in Hp, Hvalid.
  apply safeParse_AddCustomer_data in Hp. subst data.
  rewrite success_AddCustomer in Hvalid.
  apply andb_true_iff in Hvalid as [Hname Hemail].
  unfold addCustomerStatement, customerObject. cbn [getProp String.eqb].
  cbn -[Email.test].
  destruct (FormData.get fd "name") as [| |[|c r]|x|f]; try discriminate.
  destruct (FormData.get fd "email") as [| |e|y|g]; try discriminate.
  cbn in Hemail.
  destruct (EmailFacts.test_shape e Hemail)
    as (loc & dom & -> & Hloc & Hl & Hd & Hdot & Hdd & Hchars).
  exists (String c r), loc, dom. repeat split; auto. discriminate.
Qed.

Lemma customers_reaching_store_witness :
  exists name loc dom,
    InsertIntoCustomers (JStr "Ada") (JStr "ada@example.com")
      (JStr "/customers/avatar-placeholder.webp") =
    InsertIntoCustomers (JStr name) (JStr (loc ++ String "@" dom))
      (JStr "/customers/avatar-placeholder.webp") /\
    FormData.get Sample.goodCustomer "name" = JStr name /\
    FormData.get Sample.goodCustomer "email" = JStr (loc ++ String "@" dom) /\
    name <> EmptyString /\ loc <> EmptyString /\
    hasChar "@" loc = false /\ hasChar "@" dom = false /\
    hasChar "." dom = true /\
    Email.hasDoubleDot (loc ++ String "@" dom) = false /\
    JsString.allChars emailChar (loc ++ String "@" dom) = true.
Proof.
  apply (customers_reaching_store Sample.initialState Sample.goodCustomer
           (Sample.rejecting Sample.connectionLost)).
  vm_compute. left. reflexivity.
Defined.

(* ================================================================== *)
(** * Further properties: the middleware matcher *)
(* ================================================================== *)

Module MatcherFacts.
Import JsString Middleware.

Lemma afterPrefix_startsWith (text s : string) :
  match afterPrefix text s with Some _ => true | None => false end
  = startsWith text s.
Proof.
  revert s. induction text as [|a text IH]; intros [|b s]; cbn;
    try reflexivity.
  destruct (Ascii.eqb a b); [apply IH | reflexivity].
Qed.

Lemma afterPrefix_exact (text s : string) :
  match afterPrefix text s with
  | Some EmptyString => true
  | _ => false
  end = String.eqb s text.
Proof.
  revert s. induction text as [|a text IH]; intros [|b s]; cbn;
    try reflexivity.
  rewrite Ascii.eqb_sym. destruct (Ascii.eqb b a); [apply IH | reflexivity].
Qed.

Lemma anyStar_to_end (s : string) :
  anyStar (fun rest => match rest with EmptyString => true | _ => false end) s
  = noLineTerminator s.
Proof.
  induction s as [|c r IH]; cbn; [reflexivity|]. now rewrite IH.
Qed.

Lemma anyStar_suffix (suffix s : string) :
  noLineTerminator s = true ->
  anyStar (fun rest => String.eqb rest suffix) s = endsWith suffix s.
Proof.
  induction s as [|c r IH]; cbn; [reflexivity|].
  intros H. apply andb_true_iff in H as [Hc Hr].
  now rewrite Hc, (IH Hr).
Qed.

(** The matcher on a pathname, read off its parts. *)
Lemma runsOn_slash (rest : string) :
  runsOn (String "/" rest) =
  negb (startsWith "api" rest || startsWith "_next/static" rest
        || startsWith "_next/image" rest
        || anyStar (fun r => String.eqb r ".png") rest)
  && noLineTerminator rest.
Proof.
  unfold runsOn, matcher. cbn [matches].
  change (afterPrefix "/" (String "/" rest)) with (Some rest).
  cbv beta iota.
  rewrite anyStar_to_end.
  rewrite <- !afterPrefix_startsWith.
  destruct (afterPrefix "api" rest); [reflexivity|].
  destruct (afterPrefix "_next/static" rest); [reflexivity|].
  destruct (afterPrefix "_next/image" rest); [reflexivity|].
  cbn [orb].
  replace (anyStar
             (fun rest0 =>
                match afterPrefix ".png" rest0 with
                | Some rest1 =>
                    match rest1 with
                    | EmptyString => true
                    | String _ _ => false
                    end
                | None => false
                end) rest)
    with (anyStar (fun r => String.eqb r ".png") rest).
  - now destruct (anyStar _ rest).
  - clear. induction rest as [|c r IH].
    + reflexivity.
    + cbn [anyStar]. rewrite IH. f_equal.
      symmetry. apply (afterPrefix_exact ".png").
Qed.

Lemma runsOn_other (c : ascii) (rest : string) :
  c <> "/"%char -> runsOn (String c rest) = false.
Proof.
  intros Hc. unfold runsOn, matcher. cbn [matches].
  change (afterPrefix "/" (String c rest))
    with (if Ascii.eqb "/" c then Some rest else None).
  destruct (Ascii.eqb_spec "/" c); [now subst | reflexivity].
Qed.

End MatcherFacts.

(** X12: the pathnames on which the middleware runs.  The matcher matches a
    pathname exactly when it is a slash followed by a text without line
    terminator that neither starts with [api], [_next/static] or
    [_next/image] nor ends with [.png].  The three prefixes are prefixes of
    the text, not whole segments: a pathname such as [/apiary] is left out
    with [/api]. *)
Theorem middleware_pathnames (pathname : string) :
  Middleware.runsOn pathname = true <->
  exists rest,
    pathname = String "/" rest /\
    Middleware.noLineTerminator rest = true /\
    JsString.startsWith "api" rest = false /\
    JsString.startsWith "_next/static" rest = false /\
    JsString.startsWith "_next/image" rest = false /\
    Middleware.endsWith ".png" rest = false.
Proof.
  split.
  - destruct pathname as [|c rest]; [discriminate|].
    destruct (Ascii.eqb_spec c "/") as [->|Hc];
      [|now rewrite MatcherFacts.runsOn_other].
    rewrite MatcherFacts.runsOn_slash. intros H.
    apply andb_true_iff in H as [H Hlt].
    rewrite (MatcherFacts.anyStar_suffix _ _ Hlt) in H.
    apply negb_true_iff in H.
    repeat (apply orb_false_iff in H as [H ?]).
    exists rest. repeat split; assumption.
  - intros (rest & -> & Hlt & Ha & Hs & Hi & Hp).
    rewrite MatcherFacts.runsOn_slash, Ha, Hs, Hi, Hlt.
    now rewrite (MatcherFacts.anyStar_suffix _ _ Hlt), Hp.
Qed.

Lemma middleware_pathnames_witness :
  Middleware.runsOn "/dashboard/customers/create" = true /\
  Middleware.runsOn "/apiary" = false /\
  Middleware.runsOn "/customers/amy-burns.png" = false.
Proof.
  split; [|split; reflexivity].
  apply middleware_pathnames.
  exists "dashboard/customers/create". repeat split; reflexivity.
Defined.

(* ================================================================== *)
(** * Further properties: whole amounts *)
(* ================================================================== *)

Module FloatFacts.
Import WholeAmount.

Lemma digits2_size (p : positive) : digits2_pos p = Pos.size p.
Proof. induction p; cbn; congruence. Qed.

Lemma size_upper (p : positive) : Z.pos p < 2 ^ Z.pos (digits2_pos p).
Proof.
  rewrite digits2_size. pose proof (Pos.size_gt p) as H.
  apply Pos2Z.pos_lt_pos in H. now rewrite Pos2Z.inj_pow in H.
Qed.

Lemma size_lower (p : positive) : 2 ^ Z.pos (digits2_pos p) <= 2 * Z.pos p.
Proof.
  rewrite digits2_size. pose proof (Pos.size_le p) as H.
  apply Pos2Z.pos_le_pos in H. now rewrite Pos2Z.inj_pow in H.
Qed.

Lemma digits_le (p : positive) (n : Z) :
  0 <= n -> Z.pos p < 2 ^ n -> Z.pos (digits2_pos p) <= n.
Proof.
  intros Hn Hp. pose proof (size_lower p) as Hl.
  destruct (Z.le_gt_cases (Z.pos (digits2_pos p)) n) as [|Hgt]; [assumption|].
  assert (2 ^ (n + 1) <= 2 ^ Z.pos (digits2_pos p))
    by (apply Z.pow_le_mono_r; lia).
  rewrite Z.pow_add_r in H by lia. lia.
Qed.

Lemma shiftl_Z (m : positive) (k : N) :
  Z.pos (Pos.shiftl m k) = Z.pos m * 2 ^ Z.of_N k.
Proof.
  destruct k as [|k]; cbn [Pos.shiftl Z.of_N]; [lia|].
  induction k as [|k IH] using Pos.peano_ind.
  - cbn. lia.
  - rewrite Pos.iter_succ, Pos2Z.inj_xO, IH, Pos2Z.inj_succ, Z.pow_succ_r; lia.
Qed.

Lemma digits_shiftl (m : positive) (k : N) :
  Z.pos (digits2_pos (Pos.shiftl m k)) = Z.pos (digits2_pos m) + Z.of_N k.
Proof.
  destruct k as [|k]; cbn [Pos.shiftl Z.of_N]; [lia|].
  induction k as [|k IH] using Pos.peano_ind.
  - cbn. lia.
  - rewrite Pos.iter_succ. cbn [digits2_pos]. lia.
Qed.

Lemma iter_pos_iter {A} (f : A -> A) (n : positive) (x : A) :
  iter_pos f n x = Pos.iter f x n.
Proof.
  revert x. induction n as [n IH|n IH|]; intros x; cbn; [| |reflexivity].
  - rewrite !IH. now rewrite <- !Pos.iter_swap.
  - now rewrite !IH.
Qed.

Lemma shr_zeros (m k : positive) :
  iter_pos shr_1 k (Build_shr_record (Z.pos (Pos.iter xO m k)) false false)
  = Build_shr_record (Z.pos m) false false.
Proof.
  rewrite iter_pos_iter.
  induction k as [|k IH] using Pos.peano_ind.
  - reflexivity.
  - rewrite Pos.iter_succ_r, Pos.iter_succ. cbn [shr_1 orb]. exact IH.
Qed.

Lemma fexp_normal (e : Z) : -1021 <= e -> fexp prec emax e = e - 53.
Proof. unfold fexp, emin, prec, emax. lia. Qed.

Lemma round_exact (m : positive) (k : N) (e : Z) :
  Z.pos (digits2_pos m) = 53 -> -1074 <= e <= 971 ->
  binary_round_aux prec emax false (Z.pos (Pos.shiftl m k)) (e - Z.of_N k)
    loc_Exact
  = S754_finite false m e.
Proof.
  intros Hd He.
  assert (Hshift : forall k',
    shr_fexp prec emax (Z.pos (Pos.shiftl m k')) (e - Z.of_N k') loc_Exact
    = (Build_shr_record (Z.pos m) false false, e)).
  { intros k'. unfold shr_fexp. cbn [Zdigits2 shr_record_of_loc].
    rewrite digits_shiftl, Hd.
    replace (fexp prec emax (53 + Z.of_N k' + (e - Z.of_N k'))) with e
      by (unfold fexp, emin, prec, emax; lia).
    replace (e - (e - Z.of_N k')) with (Z.of_N k') by lia.
    destruct k' as [|k']; cbn [Z.of_N shr Pos.shiftl].
    - f_equal. lia.
    - rewrite shr_zeros. f_equal. lia. }
  unfold binary_round_aux. rewrite Hshift.
  cbn [shr_m loc_of_shr_record round_nearest_even].
  pose proof (Hshift 0%N) as H0. cbn [Pos.shiftl Z.of_N] in H0.
  replace (e - 0) with e in H0 by lia. rewrite H0. cbn [shr_m].
  destruct (Z.leb_spec e (emax - prec)) as [|Hgt]; [reflexivity|].
  unfold emax, prec in Hgt. lia.
Qed.

Lemma digits_normal (p : positive) :
  Z.pos (digits2_pos p) <= 53 -> Z.pos (digits2_pos (normal p)) = 53.
Proof. intros H. unfold normal. rewrite digits_shiftl. lia. Qed.

Lemma ofZ_pos (p : positive) :
  Z.pos (digits2_pos p) <= 53 ->
  ofZ (Z.pos p) = S754_finite false (normal p) (Z.pos (digits2_pos p) - 53).
Proof.
  intros Hd. unfold ofZ, binary_normalize, binary_round.
  rewrite fexp_normal by lia.
  unfold shl_align, normal.
  set (d := Z.pos (digits2_pos p)) in *.
  destruct (d + 0 - 53 - 0) as [|n|n] eqn:Hn; try lia.
  - assert (Hd53 : d = 53) by lia.
    replace (53 - d) with 0 by lia. cbn [Z.to_N Pos.shiftl].
    pose proof (round_exact p 0%N 0) as H. cbn [Z.of_N Pos.shiftl] in H.
    rewrite Hd53. apply H; [exact Hd53 | lia].
  - replace (53 - d) with (Z.pos n) by lia. cbn [Z.to_N Pos.shiftl].
    pose proof (round_exact (Pos.iter xO p n) 0%N (d + 0 - 53)) as H.
    cbn [Z.of_N Pos.shiftl] in H.
    replace (d + 0 - 53 - 0) with (d + 0 - 53) in H by lia.
    rewrite H; [f_equal; lia | | lia].
    change (Pos.iter xO p n) with (Pos.shiftl p (N.pos n)).
    rewrite digits_shiftl. subst d. lia.
Qed.

Lemma digits_mul (p q : positive) :
  Z.pos (digits2_pos p) + Z.pos (digits2_pos q)
  <= Z.pos (digits2_pos (p * q)) + 1.
Proof.
  pose proof (size_lower p) as Hp. pose proof (size_lower q) as Hq.
  pose proof (size_upper (p * q)) as Hr.
  set (dp := Z.pos (digits2_pos p)) in *.
  set (dq := Z.pos (digits2_pos q)) in *.
  set (dr := Z.pos (digits2_pos (p * q))) in *.
  destruct (Z.le_gt_cases (dp + dq) (dr + 1)) as [|Hgt]; [assumption|].
  assert (H : 2 ^ (dr + 2) <= 2 ^ (dp + dq)) by (apply Z.pow_le_mono_r; lia).
  rewrite !Z.pow_add_r in H by lia.
  rewrite Pos2Z.inj_mul in Hr. change (2 ^ 2) with 4 in H. nia.
Qed.

(** The product of two whole numbers is exact while it has at most 53
    binary digits. *)
Lemma mul_whole (p q : positive) :
  Z.pos (p * q) < 2 ^ 53 ->
  mul (ofZ (Z.pos p)) (ofZ (Z.pos q)) = ofZ (Z.pos (p * q)).
Proof.
  intros Hr.
  assert (Hdr : Z.pos (digits2_pos (p * q)) <= 53)
    by (apply digits_le; [lia | exact Hr]).
  assert (Hp : Z.pos p < 2 ^ 53) by (rewrite Pos2Z.inj_mul in Hr; nia).
  assert (Hq : Z.pos q < 2 ^ 53) by (rewrite Pos2Z.inj_mul in Hr; nia).
  assert (Hdp : Z.pos (digits2_pos p) <= 53) by (apply digits_le; lia).
  assert (Hdq : Z.pos (digits2_pos q) <= 53) by (apply digits_le; lia).
  pose proof (digits_mul p q) as Hm.
  rewrite !ofZ_pos by assumption.
  unfold mul, SFmul. cbn [xorb].
  set (dp := Z.pos (digits2_pos p)) in *.
  set (dq := Z.pos (digits2_pos q)) in *.
  set (dr := Z.pos (digits2_pos (p * q))) in *.
  assert (Hmant : (normal p * normal q)%positive
                  = Pos.shiftl (normal (p * q)) (Z.to_N (53 - dp - dq + dr))).
  { apply Pos2Z.inj. rewrite Pos2Z.inj_mul. unfold normal.
    rewrite !shiftl_Z, !Z2N.id by (subst dp dq dr; lia).
    fold dp dq dr. rewrite Pos2Z.inj_mul.
    transitivity (Z.pos p * Z.pos q * 2 ^ ((53 - dp) + (53 - dq))).
    - rewrite Z.pow_add_r by lia. ring.
    - replace (53 - dp + (53 - dq)) with ((53 - dr) + (53 - dp - dq + dr))
        by lia.
      rewrite Z.pow_add_r by lia. ring. }
  rewrite Hmant.
  replace (dp - 53 + (dq - 53))
    with (dr - 53 - Z.of_N (Z.to_N (53 - dp - dq + dr)))
    by (rewrite Z2N.id; lia).
  apply round_exact; [|lia].
  now apply digits_normal.
Qed.

(** ** The number of a run of digits *)

Import StringToNumber JsString TimeRange.

Lemma isDigit_code (c : ascii) :
  isDigit c = true -> 48 <= Z.of_nat (nat_of_ascii c) <= 57.
Proof.
  unfold isDigit. intros H. apply andb_true_iff in H as [H1 H2].
  apply Nat.leb_le in H1, H2. lia.
Qed.

Lemma digitValue_digit (c : ascii) :
  isDigit c = true ->
  digitValue 10 c = Some (Z.of_nat (nat_of_ascii c) - 48).
Proof.
  intros H. apply isDigit_code in H. unfold digitValue.
  destruct (Z.leb_spec 48 (Z.of_nat (nat_of_ascii c))); [|lia].
  destruct (Z.leb_spec (Z.of_nat (nat_of_ascii c)) 57); [|lia].
  cbn [andb].
  destruct (Z.ltb_spec (Z.of_nat (nat_of_ascii c) - 48) 10); [reflexivity|lia].
Qed.

Lemma digits_run (s : string) (acc count : Z) :
  allChars isDigit s = true ->
  digits 10 s acc count
  = (value acc s, count + Z.of_nat (String.length s), EmptyString).
Proof.
  revert acc count. induction s as [|c r IH]; intros acc count H.
  - cbn. do 2 f_equal. lia.
  - cbn [allChars] in H. apply andb_true_iff in H as [Hc Hr].
    cbn [digits]. rewrite (digitValue_digit _ Hc), (IH _ _ Hr).
    cbn [value String.length]. do 2 f_equal. lia.
Qed.

Lemma isWhiteSpace_digit (c : ascii) :
  isDigit c = true -> isWhiteSpace c = false.
Proof.
  intros H. apply isDigit_code in H. unfold isWhiteSpace.
  repeat match goal with
         | |- context [Nat.leb ?a ?b] => destruct (Nat.leb_spec a b)
         | |- context [Nat.eqb ?a ?b] => destruct (Nat.eqb_spec a b)
         end; cbn; try reflexivity; lia.
Qed.

Lemma trim_digits (s : string) :
  allChars isDigit s = true -> trim s = s.
Proof.
  intros H. unfold trim.
  assert (Hstart : trimStart s = s).
  { destruct s as [|c r]; [reflexivity|]. cbn in H |- *.
    apply andb_true_iff in H as [Hc _].
    now rewrite (isWhiteSpace_digit _ Hc). }
  rewrite Hstart. clear Hstart.
  induction s as [|c r IH]; [reflexivity|].
  cbn [allChars] in H. apply andb_true_iff in H as [Hc Hr].
  cbn [trimEnd]. rewrite (IH Hr), (isWhiteSpace_digit _ Hc).
  now destruct r.
Qed.

Lemma value_nonneg (s : string) (acc : Z) :
  allChars isDigit s = true -> 0 <= acc -> 0 <= value acc s.
Proof.
  revert acc. induction s as [|c r IH]; intros acc H Hacc; [exact Hacc|].
  cbn [allChars] in H. apply andb_true_iff in H as [Hc Hr].
  apply isDigit_code in Hc. cbn [value]. apply IH; [exact Hr | lia].
Qed.

Lemma ofDecimal_whole (v : Z) : 0 <= v -> ofDecimal false v (0 - 0) = ofZ v.
Proof.
  intros Hv. unfold ofDecimal.
  destruct (Z.eqb_spec v 0) as [->|Hne]; [reflexivity|].
  cbn [Z.sub Z.opp Z.add Z.leb Z.compare]. unfold ofZ.
  now rewrite Z.pow_0_r, Z.mul_1_r.
Qed.

Lemma not_letter_of_digit (c other : ascii) :
  isDigit c = true -> isDigit other = false -> Ascii.eqb c other = false.
Proof.
  intros Hc Ho. destruct (Ascii.eqb_spec c other); [congruence | reflexivity].
Qed.

Lemma unsignedDecimal_digits (s : string) :
  isDigits s = true ->
  unsignedDecimal s = Some (value 0 s, 0 - 0).
Proof.
  intros H. unfold unsignedDecimal.
  assert (Hall : allChars isDigit s = true) by (destruct s; [discriminate | exact H]).
  rewrite (digits_run _ _ _ Hall).
  cbn [exponentPart].
  destruct (Z.ltb_spec 0 (0 + Z.of_nat (String.length s) + 0)) as [|Hlen];
    [reflexivity|].
  destruct s; [discriminate H | cbn [String.length] in Hlen; lia].
Qed.

(** A run of digits is read as the whole number it writes. *)
Lemma stringToNumber_digits (s : string) :
  isDigits s = true -> stringToNumber s = ofZ (value 0 s).
Proof.
  intros H.
  assert (Hall : allChars isDigit s = true)
    by (destruct s; [discriminate | exact H]).
  unfold stringToNumber. rewrite (trim_digits _ Hall).
  destruct s as [|c r]; [discriminate H|].
  assert (Hradix : nonDecimalRadix (String c r) = None).
  { cbn [allChars] in Hall. apply andb_true_iff in Hall as [Hc Hr].
    destruct r as [|c' r'].
    - destruct c as [[|] [|] [|] [|] [|] [|] [|] [|]]; reflexivity.
    - cbn [allChars] in Hr. apply andb_true_iff in Hr as [Hc' _].
      assert (Hx : forall other, isDigit other = false ->
                                 Ascii.eqb c' other = false)
        by (intros other; now apply not_letter_of_digit).
      destruct c as [[|] [|] [|] [|] [|] [|] [|] [|]]; try reflexivity.
      cbn [nonDecimalRadix]. now rewrite !Hx. }
  rewrite Hradix.
  assert (Hliteral : strDecimalLiteral (String c r)
                     = match unsignedDecimal (String c r) with
                       | Some (m, e) => ofDecimal false m e
                       | None => NaN
                       end).
  { cbn [allChars] in Hall. apply andb_true_iff in Hall as [Hc _].
    unfold strDecimalLiteral.
    destruct c as [[|] [|] [|] [|] [|] [|] [|] [|]];
      try discriminate Hc; reflexivity. }
  rewrite Hliteral, (unsignedDecimal_digits _ H).
  apply ofDecimal_whole, value_nonneg; [exact Hall | lia].
Qed.

End FloatFacts.

(** The statement of each invoice action for a submission that passes
    validation. *)
Lemma invoice_statements (prev : State) (id : string) (fd : FormData.t)
    (w : World) :
  success (safeParse CreateInvoice (invoiceRaw fd)) = true ->
  exists ev ev',
    snd (run (createInvoice prev fd) w) =
      [Sql (InsertIntoInvoices (FormData.get fd "customerId")
              (JNum (mul (Number (FormData.get fd "amount")) (ofZ 100)))
              (FormData.get fd "status")
              (JStr (JsDate.dateString (clock w)))); ev] /\
    snd (run (updateInvoice id prev fd) w) =
      [Sql (UpdateInvoices (FormData.get fd "customerId")
              (JNum (mul (Number (FormData.get fd "amount")) (ofZ 100)))
              (FormData.get fd "status") id); ev'].
Proof.
  intros Hvalid.
  destruct (success_true _ Hvalid) as [data Hdata].
  pose proof Hdata as Hshape. rewrite invoiceRaw_object in Hshape.
  apply safeParse_CreateInvoice_data in Hshape.
  rewrite createInvoice_run, updateInvoice_run, UpdateInvoice_shape, Hdata.
  cbv beta iota.
  destruct (afterStatement_trace w (createInvoiceStatement data (clock w))
              (invoiceRaw fd) "Database Error: Failed to Create Invoice."
              "/dashboard/invoices") as (ev & -> & _).
  destruct (afterStatement_trace w (updateInvoiceStatement data id)
              (invoiceRaw fd) "Database Error: Failed to Update Invoice."
              "/dashboard/invoices") as (ev' & -> & _).
  exists ev, ev'. subst data. split; reflexivity.
Qed.

(** X13: whole amounts are converted exactly.  When the amount of a valid
    invoice submission is a run of decimal digits that writes a whole
    number from 1 to 90 071 992 547 409, the amount bound in the statement
    of [createInvoice] and of [updateInvoice] is the number whose value is
    exactly one hundred times that whole number (its mantissa [m] and
    exponent [e] satisfy [m = cents * 2 ^ (- e)] with [e <= 0]): no
    rounding takes place. *)
Theorem whole_amounts_exact
    (prev : State) (id : string) (fd : FormData.t) (w : World) (s : string)
    (Hamount : FormData.get fd "amount" = JStr s)
    (Hdigits : WholeAmount.isDigits s = true)
    (Hrange : 0 < WholeAmount.value 0 s <= WholeAmount.maxWhole)
    (Hvalid : success (safeParse CreateInvoice (invoiceRaw fd)) = true) :
  let cents := 100 * WholeAmount.value 0 s in
  exists m e ev ev',
    snd (run (createInvoice prev fd) w) =
      [Sql (InsertIntoInvoices (FormData.get fd "customerId")
              (JNum (S754_finite false m e)) (FormData.get fd "status")
              (JStr (JsDate.dateString (clock w)))); ev] /\
    snd (run (updateInvoice id prev fd) w) =
      [Sql (UpdateInvoices (FormData.get fd "customerId")
              (JNum (S754_finite false m e)) (FormData.get fd "status") id);
       ev'] /\
    S754_finite false m e = ofZ cents /\
    e <= 0 /\ Z.pos m = cents * 2 ^ (- e).
Proof.
  cbv zeta.
  destruct (invoice_statements prev id fd w Hvalid) as (ev & ev' & Hc & Hu).
  rewrite Hamount in Hc, Hu.
  change (Number (JStr s)) with (StringToNumber.stringToNumber s) in Hc, Hu.
  rewrite (FloatFacts.stringToNumber_digits _ Hdigits) in Hc, Hu.
  unfold WholeAmount.maxWhole in Hrange.
  destruct (WholeAmount.value 0 s) as [|p|p] eqn:Hv; try lia.
  assert (Hsmall : Z.pos (p * 100) < 2 ^ 53).
  { rewrite Pos2Z.inj_mul. change (2 ^ 53) with 9007199254740992. lia. }
  rewrite (FloatFacts.mul_whole p 100 Hsmall) in Hc, Hu.
  assert (Hd : Z.pos (digits2_pos (p * 100)) <= 53)
    by (apply FloatFacts.digits_le; [lia | exact Hsmall]).
  rewrite (FloatFacts.ofZ_pos _ Hd) in Hc, Hu.
  exists (WholeAmount.normal (p * 100)),
    (Z.pos (digits2_pos (p * 100)) - 53), ev, ev'.
  replace (100 * Z.pos p) with (Z.pos (p * 100)) by lia.
  split; [exact Hc|]. split; [exact Hu|].
  split; [now rewrite (FloatFacts.ofZ_pos _ Hd)|].
  split; [lia|].
  assert (Hm : Z.pos (WholeAmount.normal (p * 100))
               = Z.pos (p * 100)
                 * 2 ^ (- (Z.pos (digits2_pos (p * 100)) - 53))).
  { unfold WholeAmount.normal. rewrite FloatFacts.shiftl_Z, Z2N.id by lia.
    do 2 f_equal. lia. }
  exact Hm.
Qed.

Lemma whole_amounts_exact_witness :
  exists ev,
    snd (run (createInvoice Sample.initialState
                [Sample.text "customerId" "c-42"; Sample.text "amount" "250";
                 Sample.text "status" "pending"]) Sample.accepting) =
      [Sql (InsertIntoInvoices (JStr "c-42") (JNum (ofZ 25000))
              (JStr "pending") (JStr "2026-11-02")); ev].
Proof.
  destruct (whole_amounts_exact Sample.initialState "inv-1"
              [Sample.text "customerId" "c-42"; Sample.text "amount" "250";
               Sample.text "status" "pending"] Sample.accepting "250"
              eq_refl eq_refl)
    as (m & e & ev & ev' & Hc & _ & Hcents & _).
  - vm_compute. split; [reflexivity | discriminate].
  - reflexivity.
  - exists ev. rewrite Hcents in Hc. exact Hc.
Defined.

(* ================================================================== *)
(** * The amount in cents *)
(* ================================================================== *)

Module CentsFacts.
Import Cents.

Lemma canonical_digits (m : positive) (e : Z) :
  canonical_mantissa prec emax m e = true ->
  Z.pos (digits2_pos m) <= 53 /\
  fexp prec emax (Z.pos (digits2_pos m) + e) = e.
Proof.
  unfold canonical_mantissa. intros H. apply Z.eqb_eq in H.
  split; [|exact H]. unfold fexp, emin, prec, emax in H. lia.
Qed.

(** Rounding a number of the format, written with extra zero digits, gives
    that number back. *)
Lemma round_exact_bounded (m : positive) (k : N) (e : Z) :
  bounded prec emax m e = true ->
  binary_round_aux prec emax false (Z.pos (Pos.shiftl m k)) (e - Z.of_N k)
    loc_Exact
  = S754_finite false m e.
Proof.
  unfold bounded. intros H. apply andb_true_iff in H as [Hc Hb].
  apply canonical_digits in Hc as [_ Hf]. apply Z.leb_le in Hb.
  assert (Hshift : forall k',
    shr_fexp prec emax (Z.pos (Pos.shiftl m k')) (e - Z.of_N k') loc_Exact
    = (Build_shr_record (Z.pos m) false false, e)).
  { intros k'. unfold shr_fexp. cbn [Zdigits2 shr_record_of_loc].
    rewrite FloatFacts.digits_shiftl.
    replace (Z.pos (digits2_pos m) + Z.of_N k' + (e - Z.of_N k'))
      with (Z.pos (digits2_pos m) + e) by lia.
    rewrite Hf.
    replace (e - (e - Z.of_N k')) with (Z.of_N k') by lia.
    destruct k' as [|k']; cbn [Z.of_N shr Pos.shiftl].
    - f_equal. lia.
    - rewrite FloatFacts.shr_zeros. f_equal. lia. }
  unfold binary_round_aux. rewrite Hshift.
  cbn [shr_m loc_of_shr_record round_nearest_even].
  pose proof (Hshift 0%N) as H0. cbn [Pos.shiftl Z.of_N] in H0.
  replace (e - 0) with e in H0 by lia. rewrite H0. cbn [shr_m].
  destruct (Z.leb_spec e (emax - prec)) as [|Hgt]; [reflexivity | lia].
Qed.

(** When one hundred times a number is a number of the format, that is the
    product. *)
Lemma mul_hundred_exact (x r : number) :
  isBinary64 r = true -> isHundredfold x r -> mul x (ofZ 100) = r.
Proof.
  unfold isBinary64, isHundredfold.
  destruct x as [| | |[|] m e]; try contradiction.
  destruct r as [| | |[|] m' e']; try contradiction.
  cbn [valid_binary]. intros Hb Hvalue.
  change (ofZ 100) with (S754_finite false 7036874417766400 (-46)).
  unfold mul, SFmul. cbn [xorb].
  pose proof Hb as Hc. unfold bounded in Hc.
  apply andb_true_iff in Hc as [Hc _].
  apply canonical_digits in Hc as [Hd _].
  pose proof (FloatFacts.size_upper m') as Hm'.
  assert (Hpow : 2 ^ Z.pos (digits2_pos m') <= 2 ^ 53)
    by (apply Z.pow_le_mono_r; lia).
  assert (Hk : 0 <= e' - (e + -46)).
  { destruct (Z.le_gt_cases 0 (e' - (e + -46))) as [|Hneg]; [assumption|].
    exfalso.
    assert (Hlo : Z.min e e' = e') by lia. rewrite Hlo in Hvalue.
    replace (e' - e') with 0 in Hvalue by lia.
    replace (e - e') with (e - e' - 47 + 47) in Hvalue by lia.
    rewrite Z.pow_add_r in Hvalue by lia.
    assert (Hp : 0 < 2 ^ (e - e' - 47)) by (apply Z.pow_pos_nonneg; lia).
    change (2 ^ 0) with 1 in Hvalue.
    change (2 ^ 47) with 140737488355328 in Hvalue.
    change (2 ^ 53) with 9007199254740992 in Hpow.
    set (P := 2 ^ (e - e' - 47)) in *.
    assert (Hmp : 1 <= Z.pos m * P) by nia. nia. }
  assert (Hmant : (m * 7036874417766400)%positive
                  = Pos.shiftl m' (Z.to_N (e' - (e + -46)))).
  { apply Pos2Z.inj. rewrite FloatFacts.shiftl_Z, Z2N.id, Pos2Z.inj_mul by lia.
    assert (Hpos : 0 < 2 ^ (e - Z.min e e')) by (apply Z.pow_pos_nonneg; lia).
    apply (Z.mul_reg_r _ _ (2 ^ (e - Z.min e e'))); [lia|].
    assert (Hr : Z.pos m' * 2 ^ (e' - (e + -46)) * 2 ^ (e - Z.min e e')
                 = Z.pos m' * 2 ^ (e' - Z.min e e') * 2 ^ 46).
    { rewrite <- !Z.mul_assoc, <- !Z.pow_add_r by lia. do 2 f_equal. lia. }
    rewrite Hr, Hvalue. change (2 ^ 46) with 70368744177664. ring. }
  rewrite Hmant.
  set (k := Z.to_N (e' - (e + -46))).
  replace (e + -46) with (e' - Z.of_N k) by (subst k; rewrite Z2N.id; lia).
  now apply round_exact_bounded.
Qed.

End CentsFacts.

(** The statement of each invoice action for a submission that passes
    validation, followed by one call that is not a statement. *)
Lemma invoice_statement_traces (prev : State) (id : string) (fd : FormData.t)
    (w : World) :
  success (safeParse CreateInvoice (invoiceRaw fd)) = true ->
  exists ev ev',
    snd (run (createInvoice prev fd) w) =
      [Sql (InsertIntoInvoices (FormData.get fd "customerId")
              (JNum (mul (Number (FormData.get fd "amount")) (ofZ 100)))
              (FormData.get fd "status")
              (JStr (JsDate.dateString (clock w)))); ev] /\
    (forall q, ev <> Sql q) /\
    snd (run (updateInvoice id prev fd) w) =
      [Sql (UpdateInvoices (FormData.get fd "customerId")
              (JNum (mul (Number (FormData.get fd "amount")) (ofZ 100)))
              (FormData.get fd "status") id); ev'] /\
    (forall q, ev' <> Sql q).
Proof.
  intros Hvalid.
  destruct (success_true _ Hvalid) as [data Hdata].
  pose proof Hdata as Hshape. rewrite invoiceRaw_object in Hshape.
  apply safeParse_CreateInvoice_data in Hshape.
  rewrite createInvoice_run, updateInvoice_run, UpdateInvoice_shape, Hdata.
  cbv beta iota.
  destruct (afterStatement_trace w (createInvoiceStatement data (clock w))
              (invoiceRaw fd) "Database Error: Failed to Create Invoice."
              "/dashboard/invoices") as (ev & -> & Hev).
  destruct (afterStatement_trace w (updateInvoiceStatement data id)
              (invoiceRaw fd) "Database Error: Failed to Update Invoice."
              "/dashboard/invoices") as (ev' & -> & Hev').
  exists ev, ev'. subst data. repeat split; assumption.
Qed.

(** C5, where the code departs from it.  For an invoice submission that
    passes validation, the validated amount is the submitted amount coerced
    to a number, greater than 0; [createInvoice] and [updateInvoice] bind
    the same number as amount, and whenever one hundred times the validated
    amount is a binary64 number, that number is the one bound.
    [createInvoice] binds as date the text [YYYY-MM-DD] of the year, the
    month (1 to 12) and the day of the month (UTC) that the clock reads at
    the call, which is the part of the ISO string before its [T];
    [updateInvoice] binds the customer, the amount and the status only, and
    the identifier it was given.
    For the valid submission with the amount "1.1" the code does not bind
    one hundred times the amount: the validated amount is
    [4953959590107546 * 2 ^ -52] and the number bound is
    [7740561859543041 * 2 ^ -46], which is neither one hundred times the
    validated amount nor 110. *)
Theorem invoice_statement_parameters
    (prev : State) (id : string) (fd : FormData.t) (w : World)
    (Hvalid : success (safeParse CreateInvoice (invoiceRaw fd)) = true) :
  let customerId := FormData.get fd "customerId" in
  let amount := Number (FormData.get fd "amount") in
  let status := FormData.get fd "status" in
  let now := clock w in
  let year := JsDate.YearFromTime now in
  let month := JsDate.MonthFromTime now in
  let day := JsDate.DateFromTime now in
  let leap := JsDate.InLeapYear now in
  let date :=
    (JsDate.yearString year ++ "-" ++ JsDate.decimal 2 (month + 1) ++ "-"
       ++ JsDate.decimal 2 day)%string in
  ltb (ofZ 0) amount = true /\
  (exists cents ev ev',
     snd (run (createInvoice prev fd) w) =
       [Sql (InsertIntoInvoices customerId (JNum cents) status (JStr date));
        ev] /\
     (forall q, ev <> Sql q) /\
     snd (run (updateInvoice id prev fd) w) =
       [Sql (UpdateInvoices customerId (JNum cents) status id); ev'] /\
     (forall q, ev' <> Sql q) /\
     (forall exact,
        Cents.isBinary64 exact = true -> Cents.isHundredfold amount exact ->
        cents = exact)) /\
  (exists rest,
     JsString.split "T" (JsDate.toISOString now) = date :: rest) /\
  JsDate.DayFromYear year <= JsDate.Day now < JsDate.DayFromYear (year + 1) /\
  0 <= month <= 11 /\
  1 <= day <= Calendar.daysInMonth leap month /\
  JsDate.Day now =
    JsDate.DayFromYear year + Calendar.daysBeforeMonth leap month + (day - 1)
  /\
  success (safeParse CreateInvoice (invoiceRaw Cents.oneTen)) = true /\
  Number (FormData.get Cents.oneTen "amount")
    = S754_finite false 4953959590107546 (-52) /\
  (exists ev ev',
     snd (run (createInvoice prev Cents.oneTen) w) =
       [Sql (InsertIntoInvoices (JStr "c-42")
               (JNum (S754_finite false 7740561859543041 (-46)))
               (JStr "paid") (JStr date)); ev] /\
     snd (run (updateInvoice id prev Cents.oneTen) w) =
       [Sql (UpdateInvoices (JStr "c-42")
               (JNum (S754_finite false 7740561859543041 (-46)))
               (JStr "paid") id); ev']) /\
  ~ Cents.isHundredfold (S754_finite false 4953959590107546 (-52))
      (S754_finite false 7740561859543041 (-46)) /\
  7740561859543041 <> 110 * 2 ^ 46.
Proof.
  cbv zeta.
  destruct (invoice_statement_traces prev id fd w Hvalid)
    as (ev & ev' & Hc & Hev & Hu & Hev').
  destruct (DateFacts.calendar_date (clock w)) as (Hmonth & Hday & Hcount).
  rewrite invoiceRaw_object, success_CreateInvoice, !andb_true_iff in Hvalid.
  destruct Hvalid as [[_ Hpos] _].
  split; [exact Hpos|].
  split.
  { exists (mul (Number (FormData.get fd "amount")) (ofZ 100)), ev, ev'.
    repeat split; try assumption.
    intros exact Hformat Hexact. now apply CentsFacts.mul_hundred_exact. }
  split; [apply DateFacts.split_toISOString|].
  split; [apply DateFacts.YearFromTime_spec|].
  split; [exact Hmonth|]. split; [exact Hday|]. split; [exact Hcount|].
  split; [reflexivity|]. split; [vm_compute; reflexivity|].
  split.
  { destruct (invoice_statement_traces prev id Cents.oneTen w eq_refl)
      as (ev1 & ev1' & Hc1 & _ & Hu1 & _).
    exists ev1, ev1'.
    assert (Hcents : mul (Number (FormData.get Cents.oneTen "amount"))
                       (ofZ 100)
                     = S754_finite false 7740561859543041 (-46))
      by (vm_compute; reflexivity).
    rewrite Hcents in Hc1, Hu1. split; [exact Hc1 | exact Hu1]. }
  split.
  - unfold Cents.isHundredfold. vm_compute. discriminate.
  - vm_compute. discriminate.
Qed.

Lemma invoice_statement_parameters_witness :
  (exists ev,
     snd (run (createInvoice Sample.initialState Sample.goodInvoice)
            Sample.accepting) =
       [Sql (InsertIntoInvoices (JStr "c-42") (JNum (ofZ 1250)) (JStr "paid")
               (JStr "2026-11-02")); ev]) /\
  (exists ev,
     snd (run (updateInvoice "inv-1" Sample.initialState Sample.goodInvoice)
            Sample.accepting) =
       [Sql (UpdateInvoices (JStr "c-42") (JNum (ofZ 1250)) (JStr "paid")
               "inv-1"); ev]).
Proof.
  destruct (invoice_statement_parameters Sample.initialState "inv-1"
              Sample.goodInvoice Sample.accepting eq_refl)
    as (_ & (cents & ev & ev' & Hc & _ & Hu & _ & Hexact) & _).
  assert (Hcents : cents = ofZ 1250).
  { apply Hexact; [reflexivity|]. vm_compute. reflexivity. }
  rewrite Hcents in Hc, Hu.
  split; [exists ev; exact Hc | exists ev'; exact Hu].
Defined.
